(** * gullu: a radial single-day planner

    Shallow embedding of the time arithmetic of [src/app/page.tsx] (the
    schedule mutators, the split algorithm, the active-task monitor) and of
    the export collaborators of [src/lib/export.ts], followed by the
    properties the specification states about them.

    Conventions of the embedding.
    - A JavaScript [number] holding a minute count is an integer [Z]; the
      operators the source applies to it are written out in [Module Js]
      ([%] is the truncated remainder, [Math.round] rounds halves up).
    - [number | null] is [option Z]; [null] is [None].
    - An array is a [list]; [map]/[filter]/[flatMap]/[find] are the stdpp
      list operations.
    - The React state a handler closes over is the record [PageState]; a
      handler is a function from the state of the render it was created in
      to the state after its [save]/[setSelectedId] calls.
    - [uuid()] is a draw from an arbitrary sequence of identifiers; the
      state counts the draws. *)

From stdpp Require Import base tactics option list numbers strings pretty sorting.
From Stdlib Require Import ZArith Lia Ascii.

Local Open Scope Z_scope.

(** ** JavaScript primitives used by the source *)

Module Js.

(** [a % b] on integers: the remainder has the sign of the dividend. *)
Definition rem (a b : Z) : Z := Z.rem a b.

(** [Math.floor(a / b)] for integers [a], [b]. *)
Definition floor_div (a b : Z) : Z := a / b.

(** [Math.round(a / b)] for integers [a] and [b > 0]: the integer nearest
    to the quotient, a half rounding towards plus infinity, that is
    [floor (a / b + 1 / 2)]. *)
Definition round_div (a b : Z) : Z := (2 * a + b) / (2 * b).

(** [Math.max(a, b)]. *)
Definition max (a b : Z) : Z := Z.max a b.

(** Truthiness of a number: every integer but [0]. *)
Definition truthy (n : Z) : bool := negb (n =? 0).

(** Truthiness of a [number | null]. *)
Definition truthy_opt (n : option Z) : bool :=
  match n with
  | None => false
  | Some v => truthy v
  end.

(** [n || 0] for a [number | null]. *)
Definition or_zero (n : option Z) : Z :=
  match n with
  | None => 0
  | Some v => if truthy v then v else 0
  end.

(** [x !== undefined] at the type [number | null] and at [number]: no
    inhabitant of either type is [undefined]. *)
Definition neq_undefined {A : Type} (x : A) : bool := true.

(** [n.toString()] for an integer (decimal digits, a leading minus sign
    when negative). *)
Definition toString (n : Z) : string := pretty n.

Fixpoint repeat_char (n : nat) (c : Ascii.ascii) : string :=
  match n with
  | O => EmptyString
  | S k => String c (repeat_char k c)
  end.

(** [s.padStart(n, c)] with a one-character filler [c]. *)
Definition padStart (n : nat) (c : Ascii.ascii) (s : string) : string :=
  (repeat_char (n - String.length s) c +:+ s)%string.

Definition CR : Ascii.ascii := Ascii.ascii_of_nat 13.
Definition LF : Ascii.ascii := Ascii.ascii_of_nat 10.
Definition CRLF : string := String CR (String LF EmptyString).

(** [lines.join(sep)]. *)
Fixpoint join (sep : string) (lines : list string) : string :=
  match lines with
  | [] => EmptyString
  | [l] => l
  | l :: rest => (l +:+ sep +:+ join sep rest)%string
  end.

End Js.

(** ** Data model: [src/components/types.ts] *)

Inductive Category : Type := Focus | Admin | Creative | Break.

Inductive Color : Type := blue | teal | orange | cyan | pink.

Record PlannerTask : Type := mkTask {
  id : string;
  title : string;
  icon : string;
  durationMin : Z;
  category : Category;
  color : Color;
  startMin : option Z  (* minutes from 00:00, None = unplaced *)
}.

(** The string a [Category] is at run time (it is a union of literals). *)
Definition category_string (c : Category) : string :=
  match c with
  | Focus => "Focus"
  | Admin => "Admin"
  | Creative => "Creative"
  | Break => "Break"
  end.

(** Object spread with one overridden field: [{ ...t, f: v }]. *)
Definition with_id (v : string) (t : PlannerTask) : PlannerTask :=
  mkTask v (title t) (icon t) (durationMin t) (category t) (color t) (startMin t).

Definition with_durationMin (v : Z) (t : PlannerTask) : PlannerTask :=
  mkTask (id t) (title t) (icon t) v (category t) (color t) (startMin t).

Definition with_startMin (v : option Z) (t : PlannerTask) : PlannerTask :=
  mkTask (id t) (title t) (icon t) (durationMin t) (category t) (color t) v.

(** [x.id === taskId]. *)
Definition id_is (taskId : string) (x : PlannerTask) : bool :=
  String.eqb (id x) taskId.

(** [tasks.find((x) => x.id === taskId)]: the first match, if any. *)
Definition find_task (taskId : string) (tasks : list PlannerTask) : option PlannerTask :=
  List.find (id_is taskId) tasks.

(** ** The page: [src/app/page.tsx] *)

(** The state the handlers read and write: the day's task collection (the
    SWR cache entry [save] replaces), the selection, and how many
    identifiers [uuid()] has handed out. *)
Record PageState : Type := mkPage {
  tasks : list PlannerTask;
  selectedId : option string;
  uuidCalls : nat
}.

(** [await save(next)]. *)
Definition save (next : list PlannerTask) (p : PageState) : PageState :=
  mkPage next (selectedId p) (uuidCalls p).

(** [setSelectedId(v)]. *)
Definition setSelectedId (v : option string) (p : PageState) : PageState :=
  mkPage (tasks p) v (uuidCalls p).

Definition onSchedule (taskId : string) (startMin' : Z) (p : PageState) : PageState :=
  let next := (fun t => if id_is taskId t then with_startMin (Some startMin') t else t) <$> tasks p in
  save next p.

Definition onUnschedule (taskId : string) (p : PageState) : PageState :=
  let next := (fun t => if id_is taskId t then with_startMin None t else t) <$> tasks p in
  save next p.

Definition onDelete (taskId : string) (p : PageState) : PageState :=
  let next := List.filter (fun t => negb (id_is taskId t)) (tasks p) in
  save next p.

Definition onMoveTask (taskId : string) (startMin' : Z) (p : PageState) : PageState :=
  match find_task taskId (tasks p) with
  | None => p
  | Some _ =>
      let next := (fun x => if id_is taskId x then with_startMin (Some startMin') x else x) <$> tasks p in
      save next p
  end.

Definition onResizeTask (taskId : string) (startMin' durationMin' : Z) (p : PageState) : PageState :=
  let next :=
    (fun x => if id_is taskId x
              then with_durationMin durationMin' (with_startMin (Some startMin') x)
              else x) <$> tasks p in
  save next p.

Section Handlers.

(** [uuid n] is what the [n]-th call of [uuid()] returns. *)
Variable uuid : nat -> string.

(** The constant [end] of the source (line 117) is never read and is left
    out. *)
Definition onSplitTask (taskId : string) (splitAtMin : Z) (p : PageState) : PageState :=
  match find_task taskId (tasks p) with
  | None => p
  | Some t =>
      match startMin t with
      | None => p
      | Some start =>
          let split := splitAtMin in
          (* normalize across midnight *)
          let s := start in
          let e := start + durationMin t in
          let e := if e <=? s then e + 24 * 60 else e in
          let split := if split <? s then split + 24 * 60 else split in
          let split := if split >? e then e else split in (* clamp *)
          let durA := Js.max 5 (Js.round_div (split - s) 5 * 5) in
          let durB := Js.max 5 (durationMin t - durA) in
          let a := with_durationMin durA (with_id (uuid (uuidCalls p)) t) in
          let b :=
            with_durationMin durB
              (with_startMin (Some (Js.rem (start + durA) (24 * 60)))
                 (with_id (uuid (S (uuidCalls p))) t)) in
          let next := tasks p ≫= (fun x => if id_is taskId x then [a; b] else [x]) in
          setSelectedId None (save next (mkPage (tasks p) (selectedId p) (S (S (uuidCalls p)))))
      end
  end.

End Handlers.

(** [within(nowM, s, d)]. *)
Definition within (nowM s d : Z) : bool :=
  let e := s + d in
  let e := if e <=? s then e + 24 * 60 else e in
  let nowM := if nowM <? s then nowM + 24 * 60 else nowM in
  (nowM >=? s) && (nowM <=? e).

(** The wall clock [now : Date] as the page reads it: [getHours()],
    [getMinutes()], [getSeconds()]. *)
Record Clock : Type := mkClock {
  getHours : Z;
  getMinutes : Z;
  getSeconds : Z
}.

(** The comparator key of the [scheduled] view: [a.startMin || 0]. *)
Definition sort_key (t : PlannerTask) : Z := Js.or_zero (startMin t).

(** [Array.prototype.sort] with the comparator [key a - key b]: a stable
    ascending sort, written as an insertion sort. *)
Fixpoint sort_insert (x : PlannerTask) (l : list PlannerTask) : list PlannerTask :=
  match l with
  | [] => [x]
  | y :: r => if sort_key x <=? sort_key y then x :: y :: r else y :: sort_insert x r
  end.

Definition sort_by_start (l : list PlannerTask) : list PlannerTask :=
  foldr sort_insert [] l.

(** [t.startMin !== null]. *)
Definition is_placed (t : PlannerTask) : bool :=
  match startMin t with
  | None => false
  | Some _ => true
  end.

Definition scheduled (p : PageState) : list PlannerTask :=
  sort_by_start (List.filter is_placed (tasks p)).

Definition unplaced (p : PageState) : list PlannerTask :=
  List.filter (fun t => negb (is_placed t)) (tasks p).

(** [scheduled.find((t) => t.id === selectedId) || null]. *)
Definition selected (p : PageState) : option PlannerTask :=
  match selectedId p with
  | None => None
  | Some sid => List.find (id_is sid) (scheduled p)
  end.

Definition nowMin (now : Clock) : Z := getHours now * 60 + getMinutes now.

Definition isActive (p : PageState) (now : Clock) : bool :=
  match selected p with
  | None => false
  | Some sel =>
      match startMin sel with
      | None => false
      | Some s => within (nowMin now) s (durationMin sel)
      end
  end.

Definition remaining (p : PageState) (now : Clock) : Z :=
  match selected p with
  | None => 0
  | Some sel =>
      match startMin sel with
      | None => 0
      | Some s =>
          Js.rem (s + durationMin sel - nowMin now + 24 * 60) (24 * 60) * 60 - getSeconds now
      end
  end.

(** ** Export: [src/lib/export.ts] and [exportJSON] of the page *)

(** The object [exportJSON] serialises: [{ date, tasks }]. *)
Record JsonPayload : Type := mkPayload {
  payload_date : string;
  payload_tasks : list PlannerTask
}.

(** What an export does to the outside world: an [alert], the download of
    a text blob, the download of [JSON.stringify(payload, null, 2)], or a
    [window.open]. *)
Inductive Effect : Type :=
  | Alert (message : string)
  | DownloadText (filename mime content : string)
  | DownloadJson (filename : string) (payload : JsonPayload)
  | OpenWindow (url : string).

(** [minutesToTime(minutes)]. *)
Definition minutesToTime (minutes : Z) : string :=
  let hours := Js.floor_div minutes 60 in
  let mins := Js.rem minutes 60 in
  (Js.padStart 2 "0"%char (Js.toString hours) +:+ Js.padStart 2 "0"%char (Js.toString mins))%string.

Definition ics_header : list string :=
  [ "BEGIN:VCALENDAR"; "VERSION:2.0"; "PRODID:-//Planner App//Task Export//EN";
    "CALSCALE:GREGORIAN"; "METHOD:PUBLISH" ]%string.

(** The ten lines pushed for one task, lines 39-54. *)
Definition vevent (dateStr : string) (task : PlannerTask) (start : Z) : list string :=
  let startTime := minutesToTime start in
  let endTime := minutesToTime (start + durationMin task) in
  let uid := ("task-" +:+ id task +:+ "-" +:+ dateStr +:+ "@planner.app")%string in
  [ "BEGIN:VEVENT";
    "UID:" +:+ uid;
    "DTSTART:" +:+ dateStr +:+ "T" +:+ startTime +:+ "00";
    "DTEND:" +:+ dateStr +:+ "T" +:+ endTime +:+ "00";
    "SUMMARY:" +:+ title task;
    "DESCRIPTION:" +:+ icon task +:+ " " +:+ category_string (category task)
      +:+ " task - " +:+ Js.toString (durationMin task) +:+ "min";
    "CATEGORIES:" +:+ category_string (category task);
    "STATUS:CONFIRMED";
    "TRANSP:OPAQUE";
    "END:VEVENT" ]%string.

(** The body of the [forEach] callback of [generateICS], acting on the
    array [ics] it pushes to. *)
Definition generateICS_push (dateStr : string) (ics : list string) (task : PlannerTask) : list string :=
  match startMin task with
  | None => ics
  | Some start =>
      if negb (Js.truthy start) || negb (Js.truthy (durationMin task))
      then ics
      else ics ++ vevent dateStr task start
  end.

(** [scheduledTasks] of [exportTasks] and [exportToGoogleCalendar]:
    [tasks.filter(task => task.startMin !== undefined && task.durationMin !== undefined)]. *)
Definition scheduledTasks (tasks : list PlannerTask) : list PlannerTask :=
  List.filter (fun task => Js.neq_undefined (startMin task) && Js.neq_undefined (durationMin task)) tasks.

Section Exporters.

(** [date-fns]: [Date] values and [format(date, pattern)]. *)
Variable Date : Type.
Variable format : Date -> string -> string.

(** Lines 104-116 of [exportToGoogleCalendar] for one task: the URL handed
    to [window.open], or [None] when [addMinutes]/[format] throw. *)
Variable calendarUrl : Date -> PlannerTask -> option string.

(** The array [ics] when [generateICS] joins it. *)
Definition generateICS_lines (tasks : list PlannerTask) (date : Date) : list string :=
  let dateStr := format date "yyyyMMdd" in
  let ics := ics_header in
  let ics := fold_left (generateICS_push dateStr) tasks ics in
  ics ++ ["END:VCALENDAR"%string].

Definition generateICS (tasks : list PlannerTask) (date : Date) : string :=
  Js.join Js.CRLF (generateICS_lines tasks date).

Definition downloadICS (tasks : list PlannerTask) (date : Date) : list Effect :=
  let icsContent := generateICS tasks date in
  [ DownloadText ("planner-tasks-" +:+ format date "yyyy-MM-dd" +:+ ".ics")
      "text/calendar;charset=utf-8" icsContent ]%string.

Definition exportTasks (tasks : list PlannerTask) (date : Date) : list Effect :=
  let scheduledTasks := scheduledTasks tasks in
  if (length scheduledTasks =? 0)%nat
  then [ Alert "No scheduled tasks to export!" ]
  else downloadICS scheduledTasks date.

(** [scheduledTasks.forEach(task => { ...; window.open(url, '_blank') })]:
    an exception in the callback ends the loop. *)
Fixpoint openEach (date : Date) (ts : list PlannerTask) : list Effect :=
  match ts with
  | [] => []
  | task :: rest =>
      match calendarUrl date task with
      | None => []
      | Some url => OpenWindow url :: openEach date rest
      end
  end.

Definition exportToGoogleCalendar (tasks : list PlannerTask) (date : Date) : list Effect :=
  let scheduledTasks := scheduledTasks tasks in
  if (length scheduledTasks =? 0)%nat
  then [ Alert "No scheduled tasks to export!" ]
  else openEach date scheduledTasks.

(** [exportJSON] of the page: the payload is the whole [tasks] array. *)
Definition exportJSON (p : PageState) (date : Date) : list Effect :=
  let payload := mkPayload (format date "yyyy-MM-dd") (tasks p) in
  [ DownloadJson ("planner-" +:+ format date "yyyy-MM-dd" +:+ ".json") payload ]%string.

End Exporters.

Arguments generateICS_lines {Date} format tasks date.
Arguments generateICS {Date} format tasks date.
Arguments downloadICS {Date} format tasks date.
Arguments exportTasks {Date} format tasks date.
Arguments openEach {Date} calendarUrl date ts.
Arguments exportToGoogleCalendar {Date} calendarUrl tasks date.
Arguments exportJSON {Date} format p date.

(** ** Sample data *)

(** A sequence of identifiers standing for successive [uuid()] results. *)
Definition sample_uuid (n : nat) : string := ("uuid-" +:+ pretty n)%string.

(** The specification's end-to-end task, placed at 09:00. *)
Definition report : PlannerTask :=
  mkTask "t1" "Write report" "R" 60 Focus blue (Some 540).

(** A task across midnight, 23:50 to 00:50. *)
Definition late : PlannerTask :=
  mkTask "t2" "Backup" "B" 60 Admin teal (Some 1430).

(** A task that has not been placed on the dial. *)
Definition idea : PlannerTask :=
  mkTask "t3" "Sketch" "S" 30 Creative pink None.

(** A task placed at midnight. *)
Definition midnight : PlannerTask :=
  mkTask "t4" "Journal" "J" 15 Break cyan (Some 0).

Definition sample_page : PageState :=
  mkPage [report; late; idea] (Some "t1"%string) 0.

(** A calendar day as [format] sees it: its two renderings. *)
Record Day : Type := mkDay {
  day_compact : string;  (* yyyyMMdd *)
  day_iso : string       (* yyyy-MM-dd *)
}.

Definition sample_format (d : Day) (pattern : string) : string :=
  if String.eqb pattern "yyyyMMdd" then day_compact d else day_iso d.

Definition sample_day : Day := mkDay "20250101" "2025-01-01".

(** ** Names for the intermediate values of [onSplitTask] *)

(** [split] after lines 118-124, for a task that starts at [start] and
    lasts [duration]. *)
Definition split_point (start duration splitAtMin : Z) : Z :=
  let e := start + duration in
  let e := if e <=? start then e + 24 * 60 else e in
  let split := if splitAtMin <? start then splitAtMin + 24 * 60 else splitAtMin in
  if split >? e then e else split.

(** [durA], line 126. *)
Definition split_durA (start duration splitAtMin : Z) : Z :=
  Js.max 5 (Js.round_div (split_point start duration splitAtMin - start) 5 * 5).

(** [durB], line 127. *)
Definition split_durB (start duration splitAtMin : Z) : Z :=
  Js.max 5 (duration - split_durA start duration splitAtMin).

(** ** The rest of the page: totals, countdown, view state *)

(** [formatTotal(mins)]: the three interpolations of its template. *)
Definition formatTotal (mins : Z) : string :=
  let h := Js.floor_div mins 60 in
  let m := Js.rem mins 60 in
  ((if (h >? 0)%Z then Js.toString h +:+ "h" else "")
   +:+ (if ((h >? 0)%Z && (m >? 0)%Z)%bool then "" else "")
   +:+ (if (m >? 0)%Z
        then (if (h >? 0)%Z then "" else "") +:+ Js.toString m +:+ "m"
        else if (h =? 0)%Z then "0m" else ""))%string.

(** [scheduled.reduce((acc, t) => acc + t.durationMin, 0)]. *)
Definition totalScheduled (p : PageState) : Z :=
  fold_left (fun acc t => acc + durationMin t) (scheduled p) 0.

(** The accumulator of [byCat]: a [Record<Category, number>]. *)
Record CategoryTotals : Type := mkTotals {
  total_Focus : Z;
  total_Admin : Z;
  total_Creative : Z;
  total_Break : Z
}.

(** [acc[t.category] += t.durationMin; return acc]. *)
Definition byCat_step (acc : CategoryTotals) (t : PlannerTask) : CategoryTotals :=
  match category t with
  | Focus =>
      mkTotals (total_Focus acc + durationMin t) (total_Admin acc) (total_Creative acc)
        (total_Break acc)
  | Admin =>
      mkTotals (total_Focus acc) (total_Admin acc + durationMin t) (total_Creative acc)
        (total_Break acc)
  | Creative =>
      mkTotals (total_Focus acc) (total_Admin acc) (total_Creative acc + durationMin t)
        (total_Break acc)
  | Break =>
      mkTotals (total_Focus acc) (total_Admin acc) (total_Creative acc)
        (total_Break acc + durationMin t)
  end.

Definition byCat (p : PageState) : CategoryTotals :=
  fold_left byCat_step (scheduled p) (mkTotals 0 0 0 0).

(** [acc[c]]. *)
Definition total_of (c : Category) (acc : CategoryTotals) : Z :=
  match c with
  | Focus => total_Focus acc
  | Admin => total_Admin acc
  | Creative => total_Creative acc
  | Break => total_Break acc
  end.

(** The Focus Mode countdown, lines 320-321:
    [String(Math.floor(Math.max(0, remaining) / 60)).padStart(2, "0")], a
    colon, [String(Math.max(0, remaining) % 60).padStart(2, "0")]. *)
Definition countdownText (remaining : Z) : string :=
  (Js.padStart 2 "0"%char (Js.toString (Js.floor_div (Js.max 0 remaining) 60))
   +:+ ":"
   +:+ Js.padStart 2 "0"%char (Js.toString (Js.rem (Js.max 0 remaining) 60)))%string.

(** Truthiness of a [string | null]: [null] and the empty string are falsy. *)
Definition truthy_string (s : option string) : bool :=
  match s with
  | None => false
  | Some v => negb (String.eqb v "")
  end.

Inductive TimeMode : Type := Mode24h | Mode12h.

Inductive Half : Type := AM | PM.

(** The state of [Page] beside the task collection: the task dialog, the
    dial mode and the id of the task waiting to be placed. *)
Record View : Type := mkView {
  page : PageState;
  open : bool;
  timeMode : TimeMode;
  half : Half;
  placingTaskId : option string
}.

Definition with_page (p : PageState) (v : View) : View :=
  mkView p (open v) (timeMode v) (half v) (placingTaskId v).

(** [onCreate(task)]: [save([...(tasks || []), task])], [setOpen(false)]. *)
Definition onCreate (task : PlannerTask) (v : View) : View :=
  mkView (save (tasks (page v) ++ [task]) (page v)) false (timeMode v) (half v)
    (placingTaskId v).

(** [onRequestPlace]: [(id) => setPlacingTaskId(id)]. *)
Definition onRequestPlace (taskId : string) (v : View) : View :=
  mkView (page v) (open v) (timeMode v) (half v) (Some taskId).

(** [onTapPlace], lines 273-277. *)
Definition onTapPlace (startMin' : Z) (v : View) : View :=
  if negb (truthy_string (placingTaskId v)) then v
  else
    match placingTaskId v with
    | None => v
    | Some taskId =>
        mkView (onSchedule taskId startMin' (page v)) (open v) (timeMode v) (half v) None
    end.

(** [onSelectTask]: [(id) => setSelectedId(id)]. *)
Definition onSelectTask (taskId : string) (v : View) : View :=
  with_page (setSelectedId (Some taskId) (page v)) v.

(** [onRequestReset]: [() => setSelectedId(null)]. *)
Definition onRequestReset (v : View) : View :=
  with_page (setSelectedId None (page v)) v.

(** [toggleTimeMode()], [hours] being [new Date().getHours()]. *)
Definition toggleTimeMode (hours : Z) (v : View) : View :=
  let next := match timeMode v with Mode24h => Mode12h | Mode12h => Mode24h end in
  match next with
  | Mode12h =>
      mkView (page v) (open v) next (if hours <? 12 then AM else PM) (placingTaskId v)
  | Mode24h => mkView (page v) (open v) next (half v) (placingTaskId v)
  end.

(** ** The task form: [src/components/task-form.tsx] *)

Definition ICONS : list string :=
  ["💼"; "📝"; "☕️"; "💻"; "🎯"; "📚"; "🔬"; "🧠"; "🛠️"]%string.

Definition DURATIONS : list Z := [15; 30; 45; 60; 90].

Definition CATS : list Category := [Focus; Admin; Creative; Break].

Definition COLORS : list Color := [blue; teal; orange; cyan; pink].

(** The five [useState] cells of [TaskForm]. *)
Record FormState : Type := mkForm {
  form_title : string;
  form_icon : string;
  form_duration : Z;
  form_category : Category;
  form_color : Color
}.

(** The initial values of the cells; [ICONS[1]] is the second icon. *)
Definition form_init : FormState :=
  mkForm "" (default ""%string (ICONS !! 1%nat)) 30 Focus blue.

(** What the form's controls can do: the input sets any title, and there is
    one button per element of [ICONS], [DURATIONS], [CATS] and [COLORS]. *)
Inductive form_step : FormState -> FormState -> Prop :=
  | step_title (f : FormState) (s : string) :
      form_step f (mkForm s (form_icon f) (form_duration f) (form_category f) (form_color f))
  | step_icon (f : FormState) (i : string) :
      i ∈ ICONS ->
      form_step f (mkForm (form_title f) i (form_duration f) (form_category f) (form_color f))
  | step_duration (f : FormState) (d : Z) :
      d ∈ DURATIONS ->
      form_step f (mkForm (form_title f) (form_icon f) d (form_category f) (form_color f))
  | step_category (f : FormState) (c : Category) :
      c ∈ CATS ->
      form_step f (mkForm (form_title f) (form_icon f) (form_duration f) c (form_color f))
  | step_color (f : FormState) (c : Color) :
      c ∈ COLORS ->
      form_step f (mkForm (form_title f) (form_icon f) (form_duration f) (form_category f) c).

(** The states the form can be in. *)
Inductive form_reachable : FormState -> Prop :=
  | reach_init : form_reachable form_init
  | reach_step (f g : FormState) : form_reachable f -> form_step f g -> form_reachable g.

Section Form.

(** [String.prototype.trim]. *)
Variable trim : string -> string.

(** [title.trim().length > 0]. *)
Definition canCreate (f : FormState) : bool :=
  (0 <? String.length (trim (form_title f)))%nat.

(** [handleCreate()]: the task handed to [onCreate], if any; [newId] is the
    identifier built from [Date.now()] and [Math.random()]. *)
Definition handleCreate (newId : string) (f : FormState) : option PlannerTask :=
  if negb (canCreate f) then None
  else
    Some (mkTask newId (trim (form_title f)) (form_icon f) (form_duration f)
            (form_category f) (form_color f) None).

End Form.

(** The sum of the durations of a list of tasks. *)
Definition sum_durations (l : list PlannerTask) : Z :=
  foldr (fun t acc => durationMin t + acc) 0 l.

(** [a] does not start after [b], by the key the [scheduled] view sorts on. *)
Definition starts_before (a b : PlannerTask) : Prop := sort_key a <= sort_key b.

Global Instance Category_eq_dec : EqDecision Category.
Proof. solve_decision. Defined.

Global Instance Color_eq_dec : EqDecision Color.
Proof. solve_decision. Defined.

(** [String(n).padStart(2, "0")], the field of the countdown and of
    [minutesToTime]. *)
Definition two_digits (n : Z) : string := Js.padStart 2 "0"%char (Js.toString n).

(** A view on two placed tasks, nothing being placed. *)
Definition sample_view : View :=
  mkView (mkPage [report; late] None 0) true Mode24h AM None.

(** The form after the title has been typed. *)
Definition sample_form : FormState :=
  mkForm "Write report" (form_icon form_init) (form_duration form_init)
    (form_category form_init) (form_color form_init).

(** A decidable proposition about closed data, settled by running its
    decision procedure. *)
Ltac by_evaluation := apply (bool_decide_unpack _); vm_compute; exact I.

(** * Properties *)

(** ** Identifier lookups *)

Lemma id_is_true (taskId : string) (x : PlannerTask) :
  id_is taskId x = true <-> id x = taskId.
Proof. unfold id_is. apply String.eqb_eq. Qed.

Lemma id_is_false (taskId : string) (x : PlannerTask) :
  id_is taskId x = false <-> id x <> taskId.
Proof. unfold id_is. apply String.eqb_neq. Qed.

Lemma id_is_absent (taskId : string) (l : list PlannerTask) :
  taskId ∉ id <$> l -> Forall (fun x => id_is taskId x = false) l.
Proof.
  induction l as [|x l IH]; intros Hnot; constructor.
  - apply id_is_false. intros E. apply Hnot. rewrite <- E. left.
  - apply IH. intros Hin. apply Hnot. right. exact Hin.
Qed.

Lemma find_task_absent (taskId : string) (l : list PlannerTask) :
  taskId ∉ id <$> l -> find_task taskId l = None.
Proof.
  intros Hnot. apply id_is_absent in Hnot. unfold find_task.
  induction Hnot as [|x l Hx _ IH]; simpl; [reflexivity|].
  rewrite Hx. exact IH.
Qed.

Lemma find_task_first (pre post : list PlannerTask) (t : PlannerTask) :
  id t ∉ id <$> pre -> find_task (id t) (pre ++ t :: post) = Some t.
Proof.
  intros Hnot. apply id_is_absent in Hnot. unfold find_task.
  induction Hnot as [|x l Hx _ IH]; simpl.
  - assert (id_is (id t) t = true) as -> by (apply id_is_true; reflexivity).
    reflexivity.
  - rewrite Hx. exact IH.
Qed.

(** A [map] whose callback only rewrites the tasks with an absent id is the
    identity; so are the matching [filter] and [flatMap]. *)
Lemma map_absent (taskId : string) (f : PlannerTask -> PlannerTask) (l : list PlannerTask) :
  taskId ∉ id <$> l ->
  (fun x => if id_is taskId x then f x else x) <$> l = l.
Proof.
  intros Hnot. apply id_is_absent in Hnot.
  induction Hnot as [|x l Hx _ IH]; simpl; [reflexivity|].
  rewrite Hx. f_equal. exact IH.
Qed.

Lemma filter_absent (taskId : string) (l : list PlannerTask) :
  taskId ∉ id <$> l ->
  List.filter (fun x => negb (id_is taskId x)) l = l.
Proof.
  intros Hnot. apply id_is_absent in Hnot.
  induction Hnot as [|x l Hx _ IH]; simpl; [reflexivity|].
  rewrite Hx. simpl. f_equal. exact IH.
Qed.

Lemma flatMap_absent (taskId : string) (ab : list PlannerTask) (l : list PlannerTask) :
  taskId ∉ id <$> l ->
  l ≫= (fun x => if id_is taskId x then ab else [x]) = l.
Proof.
  intros Hnot. apply id_is_absent in Hnot.
  induction Hnot as [|x l Hx _ IH]; [reflexivity|].
  rewrite bind_cons, Hx, IH. reflexivity.
Qed.

Lemma flatMap_replace (pre post ab : list PlannerTask) (t : PlannerTask) :
  id t ∉ id <$> pre -> id t ∉ id <$> post ->
  (pre ++ t :: post) ≫= (fun x => if id_is (id t) x then ab else [x]) = pre ++ ab ++ post.
Proof.
  intros Hpre Hpost.
  rewrite bind_app, bind_cons.
  rewrite (flatMap_absent _ _ _ Hpre), (flatMap_absent _ _ _ Hpost).
  assert (id_is (id t) t = true) as -> by (apply id_is_true; reflexivity).
  reflexivity.
Qed.

Lemma save_same (p : PageState) : save (tasks p) p = p.
Proof. destruct p; reflexivity. Qed.

(** ** Arithmetic of the split *)

(** [Math.round(n / 5) * 5] is the multiple of 5 nearest to [n]. *)
Lemma round_div_5_nearest (n : Z) :
  (Js.round_div n 5 * 5) mod 5 = 0 /\ Z.abs (Js.round_div n 5 * 5 - n) <= 2.
Proof.
  unfold Js.round_div. split.
  - apply Z.mod_mul. lia.
  - pose proof (Z.div_mod (2 * n + 5) (2 * 5) ltac:(lia)) as Hdm.
    pose proof (Z.mod_pos_bound (2 * n + 5) (2 * 5) ltac:(lia)) as Hb.
    lia.
Qed.

(** The normalised and clamped split point, in the words of the
    specification: the end is pushed a day ahead when it is not after the
    start, the split point is pushed a day ahead when before the start, and
    brought back to the end when beyond it. *)
Lemma split_point_spec (s d splitAtMin : Z) :
  let e := if decide (s + d <= s) then s + d + 1440 else s + d in
  let split0 := if decide (splitAtMin < s) then splitAtMin + 1440 else splitAtMin in
  split_point s d splitAtMin = if decide (e < split0) then e else split0.
Proof.
  unfold split_point. cbn zeta.
  repeat case_decide;
    repeat match goal with
           | |- context [?a <=? ?b] => destruct (Z.leb_spec a b)
           | |- context [?a <? ?b] => destruct (Z.ltb_spec a b)
           | |- context [?a >? ?b] => rewrite (Z.gtb_ltb a b)
           end; lia.
Qed.

Lemma split_durA_min (s d splitAtMin : Z) : 5 <= split_durA s d splitAtMin.
Proof. unfold split_durA, Js.max. lia. Qed.

Lemma split_durB_min (s d splitAtMin : Z) : 5 <= split_durB s d splitAtMin.
Proof. unfold split_durB, Js.max. lia. Qed.

(** What [onSplitTask] leaves behind when the task is the only one with
    its id: the two halves in its place, no selection, two more draws. *)
Lemma onSplitTask_placed (uuid : nat -> string) (pre post : list PlannerTask)
    (t : PlannerTask) (sel : option string) (n : nat) (s splitAtMin : Z) :
  startMin t = Some s ->
  id t ∉ id <$> pre -> id t ∉ id <$> post ->
  onSplitTask uuid (id t) splitAtMin (mkPage (pre ++ t :: post) sel n) =
  mkPage
    (pre ++
     [ mkTask (uuid n) (title t) (icon t) (split_durA s (durationMin t) splitAtMin)
         (category t) (color t) (Some s);
       mkTask (uuid (S n)) (title t) (icon t) (split_durB s (durationMin t) splitAtMin)
         (category t) (color t)
         (Some (Js.rem (s + split_durA s (durationMin t) splitAtMin) 1440)) ] ++ post)
    None (S (S n)).
Proof.
  intros Hs Hpre Hpost. unfold onSplitTask. cbn [tasks selectedId uuidCalls].
  rewrite (find_task_first pre post t Hpre), Hs.
  rewrite flatMap_replace by assumption.
  unfold setSelectedId, save, with_durationMin, with_startMin, with_id.
  cbn [tasks selectedId uuidCalls id title icon durationMin category color startMin].
  rewrite Hs. reflexivity.
Qed.

(** ** Split *)

(** C1. Splitting the placed task [t] (the only task with its id, start
    [s] a minute of the day) at [splitAtMin] follows the algorithm of the
    specification: with [e = s + durationMin], pushed 1440 ahead when
    [e <= s], and the split point pushed 1440 ahead when below [s] and
    brought back to [e] when above it, the collection keeps every other
    task where it was and holds, in place of [t], two tasks with the next
    two generated ids: the first at [s] lasting [durA = max 5 r], [r] being
    the multiple of 5 nearest to [split - s], the second at
    [(s + durA) mod 1440] lasting [durB = max 5 (durationMin - durA)]; the
    selection is cleared. A task at 1430 lasting 60 split at raw minute 10
    gives (1430, 20) and (10, 40). *)
Theorem onSplitTask_algorithm :
  (forall (uuid : nat -> string) (pre post : list PlannerTask) (t : PlannerTask)
      (sel : option string) (n : nat) (s splitAtMin : Z),
    startMin t = Some s ->
    0 <= s ->
    id t ∉ id <$> pre -> id t ∉ id <$> post ->
    let d := durationMin t in
    let e := if decide (s + d <= s) then s + d + 1440 else s + d in
    let split0 := if decide (splitAtMin < s) then splitAtMin + 1440 else splitAtMin in
    let split := if decide (e < split0) then e else split0 in
    exists r : Z,
      r mod 5 = 0 /\ Z.abs (r - (split - s)) <= 2 /\
      let durA := Z.max 5 r in
      let durB := Z.max 5 (d - durA) in
      onSplitTask uuid (id t) splitAtMin (mkPage (pre ++ t :: post) sel n) =
      mkPage
        (pre ++
         [ mkTask (uuid n) (title t) (icon t) durA (category t) (color t) (Some s);
           mkTask (uuid (S n)) (title t) (icon t) durB (category t) (color t)
             (Some ((s + durA) mod 1440)) ] ++ post)
        None (S (S n)))
  /\
  (forall (uuid : nat -> string) (sel : option string) (n : nat)
      (i ti ic : string) (ca : Category) (co : Color),
    onSplitTask uuid i 10 (mkPage [mkTask i ti ic 60 ca co (Some 1430)] sel n) =
    mkPage [ mkTask (uuid n) ti ic 20 ca co (Some 1430);
             mkTask (uuid (S n)) ti ic 40 ca co (Some 10) ] None (S (S n))).
Proof.
  split.
  - intros uuid pre post t sel n s splitAtMin Hs Hs0 Hpre Hpost d e split0 split.
    exists (Js.round_div (split - s) 5 * 5).
    destruct (round_div_5_nearest (split - s)) as [Hmod Habs].
    split; [exact Hmod|]. split; [exact Habs|]. cbn zeta.
    rewrite (onSplitTask_placed uuid pre post t sel n s splitAtMin Hs Hpre Hpost).
    pose proof (split_point_spec s d splitAtMin) as Hsp. cbn zeta in Hsp.
    fold e in Hsp. fold split0 in Hsp. fold split in Hsp.
    unfold split_durB, split_durA, Js.max, Js.rem. fold d. rewrite Hsp.
    rewrite Z.rem_mod_nonneg by lia. reflexivity.
  - intros uuid sel n i ti ic ca co.
    pose proof (onSplitTask_placed uuid [] [] (mkTask i ti ic 60 ca co (Some 1430))
                  sel n 1430 10 eq_refl) as H.
    cbn [id title icon durationMin category color app] in H.
    rewrite H; [reflexivity | apply not_elem_of_nil | apply not_elem_of_nil].
Qed.

(** C2, as the code has it. Splitting a placed task produces two tasks that
    copy its title, icon, category and color; their durations sum to the
    original [durationMin] when the first half leaves at least 5 minutes,
    and to [durA + 5], more than the original, when it does not. *)
Theorem onSplitTask_halves (uuid : nat -> string) (pre post : list PlannerTask)
    (t : PlannerTask) (sel : option string) (n : nat) (s splitAtMin : Z) :
  startMin t = Some s ->
  id t ∉ id <$> pre -> id t ∉ id <$> post ->
  exists a b : PlannerTask,
    tasks (onSplitTask uuid (id t) splitAtMin (mkPage (pre ++ t :: post) sel n)) =
      pre ++ [a; b] ++ post /\
    (5 <= durationMin t - durationMin a ->
       durationMin a + durationMin b = durationMin t) /\
    (durationMin t - durationMin a < 5 ->
       durationMin b = 5 /\ durationMin t < durationMin a + durationMin b) /\
    (title a = title t /\ icon a = icon t /\ category a = category t /\ color a = color t) /\
    (title b = title t /\ icon b = icon t /\ category b = category t /\ color b = color t).
Proof.
  intros Hs Hpre Hpost.
  rewrite (onSplitTask_placed uuid pre post t sel n s splitAtMin Hs Hpre Hpost).
  eexists _, _. split; [reflexivity|].
  cbn [tasks id title icon durationMin category color startMin].
  unfold split_durB, Js.max.
  repeat split; lia.
Qed.

(** C4. Both halves of a split last at least 5 minutes, and when the
    normalised split point is at or beyond the end of the task the second
    half lasts exactly 5. *)
Theorem onSplitTask_floor (uuid : nat -> string) (pre post : list PlannerTask)
    (t : PlannerTask) (sel : option string) (n : nat) (s splitAtMin : Z) :
  startMin t = Some s ->
  id t ∉ id <$> pre -> id t ∉ id <$> post ->
  exists a b : PlannerTask,
    tasks (onSplitTask uuid (id t) splitAtMin (mkPage (pre ++ t :: post) sel n)) =
      pre ++ [a; b] ++ post /\
    5 <= durationMin a /\ 5 <= durationMin b /\
    (let d := durationMin t in
     let e := if decide (s + d <= s) then s + d + 1440 else s + d in
     let split0 := if decide (splitAtMin < s) then splitAtMin + 1440 else splitAtMin in
     e <= split0 -> durationMin b = 5).
Proof.
  intros Hs Hpre Hpost.
  rewrite (onSplitTask_placed uuid pre post t sel n s splitAtMin Hs Hpre Hpost).
  eexists _, _. split; [reflexivity|].
  cbn [tasks id title icon durationMin category color startMin].
  split; [apply split_durA_min|]. split; [apply split_durB_min|].
  intros Hbeyond.
  pose proof (split_point_spec s (durationMin t) splitAtMin) as Hsp. cbn zeta in Hsp.
  destruct (round_div_5_nearest (split_point s (durationMin t) splitAtMin - s)) as [_ Habs].
  unfold split_durB, split_durA, Js.max.
  revert Hsp Habs.
  generalize (Js.round_div (split_point s (durationMin t) splitAtMin - s) 5 * 5).
  generalize (split_point s (durationMin t) splitAtMin). intros sp r Hsp Habs.
  repeat case_decide; lia.
Qed.

(** ** Active-task monitor *)

(** C5. [within now s d] pushes the end [s + d] a day ahead when it is not
    after [s], pushes [now] a day ahead when before [s], and answers
    whether [s <= now <= end]. So for a start in [0, 1439] and a duration
    of at least a minute it holds at [now = s], at [now = s + d] and at the
    minute of the day the task ends on, and it holds for
    [s = 1400], [d = 100], [now = 30]. *)
Theorem within_circular :
  (forall now s d : Z,
     within now s d = true <->
     let e := if decide (s + d <= s) then s + d + 1440 else s + d in
     let now' := if decide (now < s) then now + 1440 else now in
     s <= now' <= e)
  /\
  (forall s d : Z,
     0 <= s <= 1439 -> 1 <= d ->
     within s s d = true /\
     within (s + d) s d = true /\
     within ((s + d) mod 1440) s d = true)
  /\
  within 30 1400 100 = true.
Proof.
  assert (forall now s d : Z,
     within now s d = true <->
     let e := if decide (s + d <= s) then s + d + 1440 else s + d in
     let now' := if decide (now < s) then now + 1440 else now in
     s <= now' <= e) as Hchar.
  { intros now s d. unfold within. cbn zeta.
    rewrite andb_true_iff, Z.geb_le, Z.leb_le.
    repeat case_decide;
      repeat match goal with
             | |- context [?a <=? ?b] => destruct (Z.leb_spec a b)
             | |- context [?a <? ?b] => destruct (Z.ltb_spec a b)
             end; lia. }
  split; [exact Hchar|]. split; [|reflexivity].
  intros s d Hs Hd.
  pose proof (Z.mod_pos_bound (s + d) 1440 ltac:(lia)) as Hb.
  pose proof (Z.div_mod (s + d) 1440 ltac:(lia)) as Hdm.
  repeat split; apply Hchar; cbn zeta; repeat case_decide; lia.
Qed.

(** C9. For a selected task placed at [s >= 0] with a duration [d >= 0]
    and a minute of the day [now <= 1439], the remaining time is
    [((s + d - now + 1440) mod 1440) * 60 - seconds], not clamped. *)
Theorem remaining_formula (p : PageState) (now : Clock) (sel : PlannerTask) (s : Z) :
  selected p = Some sel ->
  startMin sel = Some s ->
  0 <= s -> 0 <= durationMin sel -> nowMin now <= 1439 ->
  remaining p now =
  ((s + durationMin sel - nowMin now + 1440) mod 1440) * 60 - getSeconds now.
Proof.
  intros Hsel Hs Hs0 Hd Hnow.
  unfold remaining, Js.rem. rewrite Hsel, Hs.
  rewrite Z.rem_mod_nonneg by lia. reflexivity.
Qed.

(** ** Schedule mutators *)

(** C6. A mutation that names an id no task has leaves the page state, and
    so the task collection, as it was: place, move, resize, unschedule,
    delete and split. Every handler is a total function. *)
Theorem unknown_id_noop (uuid : nat -> string) (p : PageState) (taskId : string)
    (m d : Z) :
  taskId ∉ id <$> tasks p ->
  onSchedule taskId m p = p /\
  onMoveTask taskId m p = p /\
  onResizeTask taskId m d p = p /\
  onUnschedule taskId p = p /\
  onDelete taskId p = p /\
  onSplitTask uuid taskId m p = p.
Proof.
  intros Habsent.
  unfold onSchedule, onMoveTask, onResizeTask, onUnschedule, onDelete, onSplitTask.
  cbn zeta.
  rewrite !(map_absent taskId _ _ Habsent), (filter_absent _ _ Habsent),
    (find_task_absent _ _ Habsent), save_same.
  repeat split.
Qed.

(** C7. Moving a task changes nothing but the [startMin] of the tasks with
    the given id: the collection keeps its length, at every position a task
    with that id keeps its id, title, icon, duration, category and color and
    starts at [newStart], and a task with another id is unchanged; no
    duration changes. *)
Theorem onMoveTask_frame (p : PageState) (taskId : string) (newStart : Z) :
  length (tasks (onMoveTask taskId newStart p)) = length (tasks p) /\
  (durationMin <$> tasks (onMoveTask taskId newStart p)) = (durationMin <$> tasks p) /\
  forall (i : nat) (x : PlannerTask),
    tasks p !! i = Some x ->
    exists y : PlannerTask,
      tasks (onMoveTask taskId newStart p) !! i = Some y /\
      (id x = taskId ->
         y = mkTask (id x) (title x) (icon x) (durationMin x) (category x) (color x)
               (Some newStart)) /\
      (id x <> taskId -> y = x).
Proof.
  unfold onMoveTask.
  destruct (find_task taskId (tasks p)) as [t|] eqn:Hfind.
  - cbn [tasks save]. split; [apply length_fmap|]. split.
    + rewrite <- list_fmap_compose. apply list_fmap_ext.
      intros i x _. cbn. destruct (id_is taskId x); reflexivity.
    + intros i x Hx. rewrite list_lookup_fmap, Hx. cbn.
      eexists. split; [reflexivity|]. split.
      * intros E. apply id_is_true in E. rewrite E. reflexivity.
      * intros E. apply id_is_false in E. rewrite E. reflexivity.
  - split; [reflexivity|]. split; [reflexivity|].
    intros i x Hx. exists x. split; [exact Hx|]. split; [|reflexivity].
    intros E. exfalso.
    apply list_elem_of_lookup_2 in Hx.
    apply find_none with (x := x) in Hfind.
    + apply id_is_false in Hfind. contradiction.
    + apply list_elem_of_In. exact Hx.
Qed.

(** C8. Unscheduling a task and placing it again at [m] gives back, at the
    same position, a task with the same id, title, icon, duration, category
    and color that starts at [m]; in between it is unplaced. *)
Theorem unschedule_replace_roundtrip (p : PageState) (i : nat) (t : PlannerTask)
    (s m : Z) :
  tasks p !! i = Some t ->
  startMin t = Some s ->
  tasks (onUnschedule (id t) p) !! i =
    Some (mkTask (id t) (title t) (icon t) (durationMin t) (category t) (color t) None) /\
  tasks (onSchedule (id t) m (onUnschedule (id t) p)) !! i =
    Some (mkTask (id t) (title t) (icon t) (durationMin t) (category t) (color t) (Some m)).
Proof.
  intros Ht _.
  assert (id_is (id t) t = true) as Hid by (apply id_is_true; reflexivity).
  assert (forall v, id_is (id t) (with_startMin v t) = true) as Hid'
    by (intros v; apply id_is_true; reflexivity).
  unfold onSchedule, onUnschedule. cbn [tasks save].
  rewrite !list_lookup_fmap, Ht. cbn [fmap option_fmap option_map].
  rewrite Hid, Hid'. split; reflexivity.
Qed.

(** ** Export *)

Lemma scheduledTasks_all (l : list PlannerTask) : scheduledTasks l = l.
Proof.
  unfold scheduledTasks. induction l as [|x l IH]; simpl; [reflexivity|].
  f_equal. exact IH.
Qed.

(** The [forEach] of [generateICS] appends, task after task, the event of
    every task it does not skip. *)
Lemma generateICS_fold (dateStr : string) (l : list PlannerTask) (ics : list string) :
  fold_left (generateICS_push dateStr) l ics =
  ics ++ (List.filter (fun t => Js.truthy_opt (startMin t) && Js.truthy (durationMin t)) l
            ≫= (fun t => vevent dateStr t (default 0 (startMin t)))).
Proof.
  revert ics. induction l as [|x l IH]; intros ics; cbn [fold_left List.filter].
  - symmetry. apply app_nil_r.
  - rewrite IH. unfold generateICS_push.
    destruct (startMin x) as [s|] eqn:Hs; cbn [Js.truthy_opt andb]; [|reflexivity].
    destruct (Js.truthy s); cbn [negb orb andb]; [|reflexivity].
    destruct (Js.truthy (durationMin x)); cbn [negb orb andb]; [|reflexivity].
    rewrite bind_cons, Hs, <- app_assoc. reflexivity.
Qed.

Lemma filter_emitted_placed (l : list PlannerTask) :
  List.filter (fun t => Js.truthy_opt (startMin t) && Js.truthy (durationMin t))
    (List.filter is_placed l) =
  List.filter (fun t => Js.truthy_opt (startMin t) && Js.truthy (durationMin t)) l.
Proof.
  induction l as [|x l IH]; cbn [List.filter]; [reflexivity|].
  unfold is_placed at 1. destruct (startMin x) as [s|] eqn:Hs.
  - cbn [List.filter]. rewrite Hs, IH. reflexivity.
  - cbn [Js.truthy_opt andb]. exact IH.
Qed.

(** [lines.join(sep)] is the concatenation of the lines with [sep] between
    two of them. *)
Lemma join_concat (sep : string) (l : list string) :
  Js.join sep l = String.concat sep l.
Proof.
  induction l as [|x l IH]; [reflexivity|].
  destruct l as [|y l]; [reflexivity|].
  change (x +:+ sep +:+ Js.join sep (y :: l) = x +:+ sep +:+ String.concat sep (y :: l))%string.
  rewrite IH. reflexivity.
Qed.

(** [padStart(2, "0")] by cases on the length of the string. *)
Lemma padStart_two (x : string) :
  Js.padStart 2 "0"%char x =
  match x with
  | EmptyString => "00"%string
  | String c EmptyString => String "0"%char (String c EmptyString)
  | _ => x
  end.
Proof. destruct x as [|c [|c' x]]; reflexivity. Qed.

Lemma minutesToTime_digits (m : Z) :
  minutesToTime m =
  (Js.padStart 2 "0"%char (pretty (m / 60)) +:+ Js.padStart 2 "0"%char (pretty (Z.rem m 60)))%string.
Proof. reflexivity. Qed.

(** C10. [generateICS] emits the event of a task exactly when its
    [startMin] and its [durationMin] are both truthy (a number other than
    0). The string it returns is, joined by CR LF: the five header lines,
    then for each such task, in order, the ten lines of its event, then
    [END:VCALENDAR]. An event carries [DTSTART] at [startMin] and [DTEND] at
    [startMin + durationMin], each as the export date, [T], the hours and
    the minutes of the hour padded to two digits, and [00]. There are as
    many [BEGIN:VEVENT] lines as such tasks, and a task placed at minute 0
    leaves no trace in the output. *)
Theorem generateICS_events (Date : Type) (format : Date -> string -> string) :
  let emitted (t : PlannerTask) : bool :=
    match startMin t with
    | None => false
    | Some s => bool_decide (s <> 0 /\ durationMin t <> 0)
    end in
  let crlf : string := String "013"%char (String "010"%char EmptyString) in
  let pad2 (x : string) : string :=
    match x with
    | EmptyString => "00"%string
    | String c EmptyString => String "0"%char (String c EmptyString)
    | _ => x
    end in
  let hhmm (m : Z) : string := (pad2 (pretty (m / 60)) +:+ pad2 (pretty (Z.rem m 60)))%string in
  let cat (c : Category) : string :=
    match c with
    | Focus => "Focus"%string
    | Admin => "Admin"%string
    | Creative => "Creative"%string
    | Break => "Break"%string
    end in
  let header : list string :=
    [ "BEGIN:VCALENDAR"; "VERSION:2.0"; "PRODID:-//Planner App//Task Export//EN";
      "CALSCALE:GREGORIAN"; "METHOD:PUBLISH" ]%string in
  let event (dateStr : string) (t : PlannerTask) : list string :=
    let s := default 0 (startMin t) in
    [ "BEGIN:VEVENT";
      "UID:task-" +:+ id t +:+ "-" +:+ dateStr +:+ "@planner.app";
      "DTSTART:" +:+ dateStr +:+ "T" +:+ hhmm s +:+ "00";
      "DTEND:" +:+ dateStr +:+ "T" +:+ hhmm (s + durationMin t) +:+ "00";
      "SUMMARY:" +:+ title t;
      "DESCRIPTION:" +:+ icon t +:+ " " +:+ cat (category t) +:+ " task - "
        +:+ pretty (durationMin t) +:+ "min";
      "CATEGORIES:" +:+ cat (category t);
      "STATUS:CONFIRMED";
      "TRANSP:OPAQUE";
      "END:VEVENT" ]%string in
  (forall (l : list PlannerTask) (date : Date),
     generateICS format l date =
       String.concat crlf
         (header
          ++ (List.filter emitted l ≫= event (format date "yyyyMMdd"))
          ++ ["END:VCALENDAR"%string]))
  /\
  (forall (l : list PlannerTask) (date : Date),
     generateICS_lines format l date =
       header
       ++ (List.filter emitted l ≫= event (format date "yyyyMMdd"))
       ++ ["END:VCALENDAR"%string]
     /\ length (List.filter (String.eqb "BEGIN:VEVENT") (generateICS_lines format l date)) =
        length (List.filter emitted l))
  /\
  (forall (pre post : list PlannerTask) (t : PlannerTask) (date : Date),
     startMin t = Some 0 ->
     generateICS format (pre ++ t :: post) date = generateICS format (pre ++ post) date).
Proof.
  intros emitted crlf pad2 hhmm cat header event.
  assert (forall t, emitted t = Js.truthy_opt (startMin t) && Js.truthy (durationMin t))
    as Hemitted.
  { intros t. unfold emitted, Js.truthy_opt, Js.truthy.
    destruct (startMin t) as [s|]; [|reflexivity].
    destruct (Z.eqb_spec s 0), (Z.eqb_spec (durationMin t) 0); cbn [negb andb];
      first [ apply bool_decide_eq_true_2; tauto | apply bool_decide_eq_false_2; tauto ]. }
  assert (forall dateStr t, vevent dateStr t (default 0 (startMin t)) = event dateStr t)
    as Hevent.
  { intros dateStr t. unfold vevent, event, hhmm, pad2, Js.toString. cbn zeta.
    rewrite !minutesToTime_digits, !padStart_two.
    destruct (category t); reflexivity. }
  assert (forall (l : list PlannerTask) (date : Date),
     generateICS_lines format l date =
       header
       ++ (List.filter emitted l ≫= event (format date "yyyyMMdd"))
       ++ ["END:VCALENDAR"%string]) as Hlines.
  { intros l date. unfold generateICS_lines. cbn zeta.
    rewrite generateICS_fold, <- app_assoc.
    rewrite (List.filter_ext _ _ Hemitted l).
    f_equal. f_equal.
    induction (List.filter _ l) as [|x k IH]; [reflexivity|].
    rewrite !bind_cons, IH, Hevent. reflexivity. }
  split; [|split].
  - intros l date. unfold generateICS. rewrite join_concat, Hlines. reflexivity.
  - intros l date. split; [apply Hlines|].
    rewrite Hlines, !List.filter_app, !length_app.
    assert (forall k : list PlannerTask,
      length (List.filter (String.eqb "BEGIN:VEVENT") (k ≫= event (format date "yyyyMMdd")))
      = length k) as Hcount.
    { induction k as [|x k IH]; [reflexivity|].
      rewrite bind_cons, List.filter_app, length_app, IH.
      destruct (category x); reflexivity. }
    rewrite Hcount. cbn. lia.
  - intros pre post t date H0. unfold generateICS. rewrite !Hlines.
    rewrite !List.filter_app. cbn [List.filter].
    assert (emitted t = false) as ->.
    { unfold emitted. rewrite H0. apply bool_decide_eq_false_2. tauto. }
    reflexivity.
Qed.

(** C3, as the code has it. The ICS export emits nothing for an unplaced
    task: the calendar generated from a collection is the one generated
    from its placed tasks, and it is what [exportTasks] downloads. The JSON
    export takes the whole collection, placed or not, as its payload. *)
Theorem export_unplaced (Date : Type) (format : Date -> string -> string) :
  (forall (l : list PlannerTask) (date : Date),
     generateICS format l date = generateICS format (List.filter is_placed l) date)
  /\
  (forall (pre post : list PlannerTask) (t : PlannerTask) (date : Date),
     startMin t = None ->
     generateICS format (pre ++ t :: post) date = generateICS format (pre ++ post) date /\
     exportTasks format (pre ++ t :: post) date =
       [ DownloadText ("planner-tasks-" +:+ format date "yyyy-MM-dd" +:+ ".ics")
           "text/calendar;charset=utf-8" (generateICS format (pre ++ post) date) ]%string)
  /\
  (forall (p : PageState) (date : Date),
     exists (filename : string) (payload : JsonPayload),
       exportJSON format p date = [ DownloadJson filename payload ] /\
       payload_tasks payload = tasks p).
Proof.
  assert (forall (pre post : list PlannerTask) (t : PlannerTask) (date : Date),
     startMin t = None ->
     generateICS format (pre ++ t :: post) date = generateICS format (pre ++ post) date)
    as Hskip.
  { intros pre post t date Hnone. unfold generateICS, generateICS_lines. cbn zeta.
    rewrite !generateICS_fold, !List.filter_app. cbn [List.filter].
    rewrite Hnone. reflexivity. }
  split; [|split].
  - intros l date. unfold generateICS, generateICS_lines. cbn zeta.
    rewrite !generateICS_fold, filter_emitted_placed. reflexivity.
  - intros pre post t date Hnone. split; [apply Hskip; exact Hnone|].
    unfold exportTasks. cbn zeta. rewrite scheduledTasks_all.
    rewrite length_app. cbn [length].
    replace (length pre + S (length post) =? 0)%nat with false
      by (symmetry; apply Nat.eqb_neq; lia).
    unfold downloadICS. cbn zeta. rewrite (Hskip pre post t date Hnone). reflexivity.
  - intros p date. eexists _, _. split; reflexivity.
Qed.

(** The Google Calendar export does reach an unplaced task: its filter keeps
    it, and the loop builds and opens a URL for it. *)
Lemma exportToGoogleCalendar_unplaced (Date : Type)
    (calendarUrl : Date -> PlannerTask -> option string)
    (t : PlannerTask) (rest : list PlannerTask) (date : Date) (url : string) :
  startMin t = None ->
  calendarUrl date t = Some url ->
  exists more : list Effect,
    exportToGoogleCalendar calendarUrl (t :: rest) date = OpenWindow url :: more.
Proof.
  intros _ Hurl. unfold exportToGoogleCalendar. cbn zeta.
  rewrite scheduledTasks_all. cbn [length Nat.eqb openEach]. rewrite Hurl.
  eexists. reflexivity.
Qed.

(** ** The theorems at the sample data *)

Lemma onSplitTask_algorithm_witness :
  startMin late = Some 1430 /\
  0 <= 1430 /\
  (id late ∉ id <$> [report]) /\
  (id late ∉ id <$> [idea]) /\
  exists r : Z,
    r mod 5 = 0 /\ Z.abs (r - (1450 - 1430)) <= 2 /\
    onSplitTask sample_uuid "t2" 10 (mkPage ([report] ++ late :: [idea]) (Some "t2"%string) 0) =
    mkPage
      ([report] ++
       [ mkTask "uuid-0" "Backup" "B" (Z.max 5 r) Admin teal (Some 1430);
         mkTask "uuid-1" "Backup" "B" (Z.max 5 (60 - Z.max 5 r)) Admin teal
           (Some ((1430 + Z.max 5 r) mod 1440)) ] ++ [idea])
      None 2.
Proof.
  assert (id late ∉ id <$> [report]) as Hpre by by_evaluation.
  assert (id late ∉ id <$> [idea]) as Hpost by by_evaluation.
  split; [reflexivity|]. split; [lia|]. split; [exact Hpre|]. split; [exact Hpost|].
  exact (proj1 onSplitTask_algorithm sample_uuid [report] [idea] late
           (Some "t2"%string) 0%nat 1430 10 eq_refl ltac:(lia) Hpre Hpost).
Defined.

(** The claim of C2 fails as the specification words it: [report], 09:00 to
    10:00, split two minutes before its end gives halves of 60 and 5
    minutes, 65 in all. *)
Lemma onSplitTask_sum_counterexample :
  startMin report = Some 540 /\
  (durationMin <$> tasks (onSplitTask sample_uuid "t1" 598 (mkPage [report] None 0))) = [60; 5] /\
  ~ (exists a b : PlannerTask,
       tasks (onSplitTask sample_uuid "t1" 598 (mkPage [report] None 0)) = [a; b] /\
       durationMin a + durationMin b = durationMin report).
Proof.
  split; [reflexivity|]. split; [reflexivity|].
  intros (a & b & Heq & Hsum).
  vm_compute in Heq. injection Heq as <- <-. vm_compute in Hsum. discriminate Hsum.
Qed.

Lemma onSplitTask_halves_witness :
  startMin report = Some 540 /\
  (id report ∉ id <$> [late]) /\
  (id report ∉ id <$> [idea]) /\
  exists a b : PlannerTask,
    tasks (onSplitTask sample_uuid (id report) 570
             (mkPage ([late] ++ report :: [idea]) None 0)) = [late] ++ [a; b] ++ [idea] /\
    (5 <= durationMin report - durationMin a ->
       durationMin a + durationMin b = durationMin report) /\
    (durationMin report - durationMin a < 5 ->
       durationMin b = 5 /\ durationMin report < durationMin a + durationMin b) /\
    (title a = title report /\ icon a = icon report /\
     category a = category report /\ color a = color report) /\
    (title b = title report /\ icon b = icon report /\
     category b = category report /\ color b = color report).
Proof.
  assert (id report ∉ id <$> [late]) as Hpre by by_evaluation.
  assert (id report ∉ id <$> [idea]) as Hpost by by_evaluation.
  split; [reflexivity|]. split; [exact Hpre|]. split; [exact Hpost|].
  exact (onSplitTask_halves sample_uuid [late] [idea] report None 0%nat 540 570
           eq_refl Hpre Hpost).
Defined.

Lemma onSplitTask_floor_witness :
  startMin late = Some 1430 /\
  (id late ∉ id <$> [report]) /\
  (id late ∉ id <$> [idea]) /\
  exists a b : PlannerTask,
    tasks (onSplitTask sample_uuid (id late) 120
             (mkPage ([report] ++ late :: [idea]) None 0)) = [report] ++ [a; b] ++ [idea] /\
    5 <= durationMin a /\ 5 <= durationMin b /\
    (1490 <= 1560 -> durationMin b = 5).
Proof.
  assert (id late ∉ id <$> [report]) as Hpre by by_evaluation.
  assert (id late ∉ id <$> [idea]) as Hpost by by_evaluation.
  split; [reflexivity|]. split; [exact Hpre|]. split; [exact Hpost|].
  exact (onSplitTask_floor sample_uuid [report] [idea] late None 0%nat 1430 120
           eq_refl Hpre Hpost).
Defined.

Lemma within_circular_witness :
  (0 <= 1400 <= 1439) /\ 1 <= 100 /\
  within 1400 1400 100 = true /\
  within (1400 + 100) 1400 100 = true /\
  within ((1400 + 100) mod 1440) 1400 100 = true.
Proof.
  split; [lia|]. split; [lia|].
  exact (proj1 (proj2 within_circular) 1400 100 ltac:(lia) ltac:(lia)).
Defined.

Lemma remaining_formula_witness :
  selected sample_page = Some report /\
  startMin report = Some 540 /\
  0 <= 540 /\ 0 <= durationMin report /\ nowMin (mkClock 9 30 15) <= 1439 /\
  remaining sample_page (mkClock 9 30 15) =
  ((540 + durationMin report - nowMin (mkClock 9 30 15) + 1440) mod 1440) * 60
  - getSeconds (mkClock 9 30 15).
Proof.
  split; [reflexivity|]. split; [reflexivity|]. split; [lia|].
  split; [vm_compute; discriminate|]. split; [vm_compute; discriminate|].
  apply (remaining_formula sample_page (mkClock 9 30 15) report 540).
  - reflexivity.
  - reflexivity.
  - lia.
  - vm_compute; discriminate.
  - vm_compute; discriminate.
Defined.

Lemma unknown_id_noop_witness :
  ("t9"%string ∉ id <$> tasks sample_page) /\
  onSchedule "t9" 600 sample_page = sample_page /\
  onMoveTask "t9" 600 sample_page = sample_page /\
  onResizeTask "t9" 600 45 sample_page = sample_page /\
  onUnschedule "t9" sample_page = sample_page /\
  onDelete "t9" sample_page = sample_page /\
  onSplitTask sample_uuid "t9" 600 sample_page = sample_page.
Proof.
  assert ("t9"%string ∉ id <$> tasks sample_page) as Habsent by by_evaluation.
  split; [exact Habsent|].
  exact (unknown_id_noop sample_uuid sample_page "t9" 600 45 Habsent).
Defined.

Lemma onMoveTask_frame_witness :
  tasks sample_page !! 1%nat = Some late /\
  exists y : PlannerTask,
    tasks (onMoveTask "t2" 600 sample_page) !! 1%nat = Some y /\
    (id late = "t2"%string ->
       y = mkTask (id late) (title late) (icon late) (durationMin late) (category late)
             (color late) (Some 600)) /\
    (id late <> "t2"%string -> y = late).
Proof.
  split; [reflexivity|].
  exact (proj2 (proj2 (onMoveTask_frame sample_page "t2" 600)) 1%nat late eq_refl).
Defined.

Lemma unschedule_replace_roundtrip_witness :
  tasks sample_page !! 1%nat = Some late /\
  startMin late = Some 1430 /\
  tasks (onUnschedule (id late) sample_page) !! 1%nat =
    Some (mkTask (id late) (title late) (icon late) (durationMin late) (category late)
            (color late) None) /\
  tasks (onSchedule (id late) 600 (onUnschedule (id late) sample_page)) !! 1%nat =
    Some (mkTask (id late) (title late) (icon late) (durationMin late) (category late)
            (color late) (Some 600)).
Proof.
  split; [reflexivity|]. split; [reflexivity|].
  exact (unschedule_replace_roundtrip sample_page 1%nat late 1430 600 eq_refl eq_refl).
Defined.

Lemma generateICS_events_witness :
  startMin midnight = Some 0 /\
  generateICS sample_format ([report] ++ midnight :: [late]) sample_day =
  String.concat (String "013"%char (String "010"%char EmptyString))
    [ "BEGIN:VCALENDAR"; "VERSION:2.0"; "PRODID:-//Planner App//Task Export//EN";
      "CALSCALE:GREGORIAN"; "METHOD:PUBLISH";
      "BEGIN:VEVENT"; "UID:task-t1-20250101@planner.app";
      "DTSTART:20250101T090000"; "DTEND:20250101T100000";
      "SUMMARY:Write report"; "DESCRIPTION:R Focus task - 60min"; "CATEGORIES:Focus";
      "STATUS:CONFIRMED"; "TRANSP:OPAQUE"; "END:VEVENT";
      "BEGIN:VEVENT"; "UID:task-t2-20250101@planner.app";
      "DTSTART:20250101T235000"; "DTEND:20250101T245000";
      "SUMMARY:Backup"; "DESCRIPTION:B Admin task - 60min"; "CATEGORIES:Admin";
      "STATUS:CONFIRMED"; "TRANSP:OPAQUE"; "END:VEVENT";
      "END:VCALENDAR" ]%string.
Proof.
  split; [reflexivity|].
  rewrite (proj2 (proj2 (generateICS_events Day sample_format))
             [report] [late] midnight sample_day eq_refl).
  rewrite (proj1 (generateICS_events Day sample_format) ([report] ++ [late]) sample_day).
  reflexivity.
Defined.

(** The claim of C3 fails as the specification words it: the JSON export of
    [sample_page] carries the record of [idea], which is not placed. *)
Lemma exportJSON_counterexample :
  startMin idea = None /\
  exportJSON sample_format sample_page sample_day =
    [ DownloadJson "planner-2025-01-01.json"
        (mkPayload "2025-01-01" [report; late; idea]) ] /\
  idea ∈ payload_tasks (mkPayload "2025-01-01" [report; late; idea]).
Proof.
  split; [reflexivity|]. split; [reflexivity|].
  cbn [payload_tasks]. do 2 right. left.
Qed.

Lemma export_unplaced_witness :
  startMin idea = None /\
  generateICS sample_format ([report] ++ idea :: [late]) sample_day =
    generateICS sample_format ([report] ++ [late]) sample_day /\
  exportTasks sample_format ([report] ++ idea :: [late]) sample_day =
    [ DownloadText ("planner-tasks-" +:+ sample_format sample_day "yyyy-MM-dd" +:+ ".ics")
        "text/calendar;charset=utf-8"
        (generateICS sample_format ([report] ++ [late]) sample_day) ]%string.
Proof.
  split; [reflexivity|].
  exact (proj1 (proj2 (export_unplaced Day sample_format))
           [report] [late] idea sample_day eq_refl).
Defined.

(** * More of the code *)

(** ** The scheduled view and its totals *)

Lemma sort_insert_perm (x : PlannerTask) (l : list PlannerTask) :
  sort_insert x l ≡ₚ x :: l.
Proof.
  induction l as [|y l IH]; cbn [sort_insert]; [reflexivity|].
  destruct (sort_key x <=? sort_key y); [reflexivity|].
  rewrite IH. apply Permutation_swap.
Qed.

Lemma sort_by_start_perm (l : list PlannerTask) : sort_by_start l ≡ₚ l.
Proof.
  unfold sort_by_start. induction l as [|x l IH]; cbn [foldr]; [reflexivity|].
  rewrite sort_insert_perm, IH. reflexivity.
Qed.

Lemma sort_insert_sorted (x : PlannerTask) (l : list PlannerTask) :
  StronglySorted starts_before l -> StronglySorted starts_before (sort_insert x l).
Proof.
  induction 1 as [|y l Hsorted IH Hy]; cbn [sort_insert].
  - repeat constructor.
  - destruct (Z.leb_spec (sort_key x) (sort_key y)) as [Hle|Hgt].
    + constructor; [constructor; assumption|].
      constructor; [exact Hle|].
      eapply Forall_impl; [exact Hy|]. unfold starts_before. intros z Hz. lia.
    + constructor; [exact IH|].
      rewrite sort_insert_perm. constructor; [|exact Hy].
      unfold starts_before. lia.
Qed.

Lemma sort_by_start_sorted (l : list PlannerTask) :
  StronglySorted starts_before (sort_by_start l).
Proof.
  unfold sort_by_start. induction l as [|x l IH]; cbn [foldr].
  - constructor.
  - apply sort_insert_sorted. exact IH.
Qed.

(** The sort is stable: tasks with the same key keep their order. *)
Lemma sort_insert_same_key (k : Z) (x : PlannerTask) (l : list PlannerTask) :
  List.filter (fun t => sort_key t =? k) (sort_insert x l) =
  List.filter (fun t => sort_key t =? k) (x :: l).
Proof.
  induction l as [|y l IH]; cbn [sort_insert]; [reflexivity|].
  destruct (Z.leb_spec (sort_key x) (sort_key y)) as [Hle|Hgt]; [reflexivity|].
  cbn [List.filter] in *. rewrite IH.
  destruct (Z.eqb_spec (sort_key x) k) as [Hx|Hx];
    destruct (Z.eqb_spec (sort_key y) k) as [Hy|Hy]; try reflexivity.
  lia.
Qed.

Lemma sort_by_start_same_key (k : Z) (l : list PlannerTask) :
  List.filter (fun t => sort_key t =? k) (sort_by_start l) =
  List.filter (fun t => sort_key t =? k) l.
Proof.
  unfold sort_by_start. induction l as [|x l IH]; cbn [foldr]; [reflexivity|].
  rewrite sort_insert_same_key. cbn [List.filter]. rewrite IH. reflexivity.
Qed.

Lemma filter_split_perm (f : PlannerTask -> bool) (l : list PlannerTask) :
  l ≡ₚ List.filter f l ++ List.filter (fun t => negb (f t)) l.
Proof.
  induction l as [|x l IH]; cbn [List.filter]; [reflexivity|].
  destruct (f x); cbn [negb app].
  - constructor. exact IH.
  - rewrite <- Permutation_middle. constructor. exact IH.
Qed.

Lemma in_filter_placed (t : PlannerTask) (l : list PlannerTask) :
  t ∈ List.filter is_placed l <-> t ∈ l /\ is_placed t = true.
Proof. rewrite !list_elem_of_In. apply List.filter_In. Qed.

Lemma filter_start_placed (s : Z) (l : list PlannerTask) :
  List.filter (fun t => bool_decide (startMin t = Some s)) (List.filter is_placed l) =
  List.filter (fun t => bool_decide (startMin t = Some s)) l.
Proof.
  induction l as [|x l IH]; cbn [List.filter]; [reflexivity|].
  unfold is_placed at 1. destruct (startMin x) as [sx|] eqn:Hsx.
  - cbn [List.filter]. rewrite Hsx, IH. reflexivity.
  - rewrite bool_decide_eq_false_2 by congruence. exact IH.
Qed.

(** X1. The [scheduled] view holds exactly the placed tasks of the
    collection, each as often as the collection does, in ascending order of
    [startMin]; tasks that start at the same minute keep the order they
    have in the collection. *)
Theorem scheduled_sorted (p : PageState) :
  scheduled p ≡ₚ List.filter is_placed (tasks p) /\
  (forall t : PlannerTask,
     t ∈ scheduled p <-> t ∈ tasks p /\ exists s : Z, startMin t = Some s) /\
  (forall (i j : nat) (a b : PlannerTask) (sa sb : Z),
     (i < j)%nat -> scheduled p !! i = Some a -> scheduled p !! j = Some b ->
     startMin a = Some sa -> startMin b = Some sb -> sa <= sb) /\
  (forall s : Z,
     List.filter (fun t => bool_decide (startMin t = Some s)) (scheduled p) =
     List.filter (fun t => bool_decide (startMin t = Some s)) (tasks p)).
Proof.
  assert (forall t s, startMin t = Some s -> sort_key t = s) as Hkey.
  { intros t s Hs. unfold sort_key, Js.or_zero, Js.truthy. rewrite Hs.
    destruct (Z.eqb_spec s 0); cbn [negb]; congruence. }
  assert (forall t, t ∈ scheduled p <-> t ∈ tasks p /\ exists s : Z, startMin t = Some s)
    as Hmem.
  { intros t. unfold scheduled. rewrite sort_by_start_perm, in_filter_placed.
    unfold is_placed. destruct (startMin t) as [s|]; split; intros [Hin H]; split;
      try exact Hin; try reflexivity; try discriminate; eauto.
    destruct H as [s Hs]. discriminate. }
  split; [apply sort_by_start_perm|]. split; [exact Hmem|]. split.
  - intros i j a b sa sb Hij Ha Hb Hsa Hsb.
    pose proof (sort_by_start_sorted (List.filter is_placed (tasks p))) as Hsorted.
    fold (scheduled p) in Hsorted.
    apply list_elem_of_split_length in Ha as (l1 & l2 & Heq & Hlen).
    rewrite Heq in Hsorted, Hb.
    apply StronglySorted_app_1_r in Hsorted. apply StronglySorted_inv in Hsorted as [_ Hall].
    rewrite lookup_app_r in Hb by lia.
    destruct (j - length l1)%nat as [|k] eqn:Hk; [lia|]. cbn in Hb.
    apply list_elem_of_lookup_2 in Hb.
    rewrite Forall_forall in Hall. specialize (Hall b Hb).
    unfold starts_before in Hall.
    rewrite (Hkey a sa Hsa), (Hkey b sb Hsb) in Hall. exact Hall.
  - intros s.
    assert (forall l : list PlannerTask,
      Forall (fun t => is_placed t = true) l ->
      List.filter (fun t => bool_decide (startMin t = Some s)) l =
      List.filter (fun t => sort_key t =? s) l) as Hsame.
    { induction 1 as [|x l Hx _ IH]; cbn [List.filter]; [reflexivity|].
      rewrite IH. unfold is_placed in Hx.
      destruct (startMin x) as [sx|] eqn:Hsx; [|discriminate].
      rewrite (Hkey x sx Hsx).
      destruct (Z.eqb_spec sx s) as [->|Hne].
      - rewrite bool_decide_eq_true_2 by reflexivity. reflexivity.
      - rewrite bool_decide_eq_false_2 by congruence. reflexivity. }
    unfold scheduled. rewrite Hsame.
    + rewrite sort_by_start_same_key. rewrite <- Hsame.
      * apply filter_start_placed.
      * rewrite Forall_forall. intros t Ht. apply in_filter_placed in Ht. tauto.
    + rewrite Forall_forall. intros t Ht.
      rewrite sort_by_start_perm in Ht. apply in_filter_placed in Ht. tauto.
Qed.

(** X2. Every task of the collection is in exactly one of the two lists
    the page shows: the collection is the [scheduled] view followed by the
    [unplaced] list, up to order, and no task is in both. *)
Theorem scheduled_unplaced_partition (p : PageState) :
  tasks p ≡ₚ scheduled p ++ unplaced p /\
  (length (scheduled p) + length (unplaced p) = length (tasks p))%nat /\
  (forall t : PlannerTask, t ∈ scheduled p -> t ∈ unplaced p -> False) /\
  unplaced p `sublist_of` tasks p.
Proof.
  assert (tasks p ≡ₚ scheduled p ++ unplaced p) as Hperm.
  { unfold scheduled, unplaced. rewrite sort_by_start_perm. apply filter_split_perm. }
  split; [exact Hperm|]. split.
  - rewrite <- length_app. symmetry. apply Permutation_length. exact Hperm.
  - split.
    + intros t Hs Hu. unfold scheduled in Hs. rewrite sort_by_start_perm in Hs.
      apply in_filter_placed in Hs as [_ Hs].
      unfold unplaced in Hu. rewrite list_elem_of_In in Hu.
      apply List.filter_In in Hu as [_ Hu]. rewrite Hs in Hu. discriminate.
    + unfold unplaced. clear Hperm.
      induction (tasks p) as [|x l IH]; cbn [List.filter].
      * constructor.
      * destruct (negb (is_placed x)).
        -- apply sublist_skip. exact IH.
        -- apply sublist_cons. exact IH.
Qed.

Lemma fold_left_durations (l : list PlannerTask) (a : Z) :
  fold_left (fun acc t => acc + durationMin t) l a = a + sum_durations l.
Proof.
  revert a. induction l as [|x l IH]; intros a; cbn [fold_left sum_durations foldr].
  - lia.
  - rewrite IH. fold (sum_durations l). lia.
Qed.

Lemma sum_durations_app (l1 l2 : list PlannerTask) :
  sum_durations (l1 ++ l2) = sum_durations l1 + sum_durations l2.
Proof.
  induction l1 as [|x l1 IH]; cbn [app sum_durations foldr]; [reflexivity|].
  fold (sum_durations (l1 ++ l2)). fold (sum_durations l1). lia.
Qed.

Lemma sum_durations_cons (x : PlannerTask) (l : list PlannerTask) :
  sum_durations (x :: l) = durationMin x + sum_durations l.
Proof. reflexivity. Qed.

Lemma sum_durations_perm (l1 l2 : list PlannerTask) :
  l1 ≡ₚ l2 -> sum_durations l1 = sum_durations l2.
Proof.
  induction 1 as [|x l1 l2 _ IH|x y l|l1 l2 l3 _ IH1 _ IH2];
    rewrite ?sum_durations_cons; lia.
Qed.

Lemma filter_perm (f : PlannerTask -> bool) (l1 l2 : list PlannerTask) :
  l1 ≡ₚ l2 -> List.filter f l1 ≡ₚ List.filter f l2.
Proof.
  induction 1 as [|x l1 l2 _ IH|x y l|l1 l2 l3 _ IH1 _ IH2]; cbn [List.filter].
  - reflexivity.
  - destruct (f x); [constructor|]; exact IH.
  - destruct (f x), (f y); try reflexivity. apply Permutation_swap.
  - etransitivity; eassumption.
Qed.

Lemma totalScheduled_placed (p : PageState) :
  totalScheduled p = sum_durations (List.filter is_placed (tasks p)).
Proof.
  unfold totalScheduled, scheduled. rewrite fold_left_durations.
  rewrite (sum_durations_perm _ _ (sort_by_start_perm _)). lia.
Qed.

Lemma byCat_fold (c : Category) (l : list PlannerTask) (acc : CategoryTotals) :
  total_of c (fold_left byCat_step l acc) =
  total_of c acc + sum_durations (List.filter (fun t => bool_decide (category t = c)) l).
Proof.
  revert acc. induction l as [|x l IH]; intros acc; cbn [fold_left List.filter].
  - cbn. lia.
  - rewrite IH. unfold byCat_step.
    destruct (category x), c; cbn [total_of total_Focus total_Admin total_Creative total_Break];
      first [ rewrite bool_decide_eq_true_2 by reflexivity; rewrite sum_durations_cons; lia
            | rewrite bool_decide_eq_false_2 by discriminate; lia ].
Qed.

Lemma sum_durations_by_category (l : list PlannerTask) :
  sum_durations l =
  sum_durations (List.filter (fun t => bool_decide (category t = Focus)) l)
  + sum_durations (List.filter (fun t => bool_decide (category t = Admin)) l)
  + sum_durations (List.filter (fun t => bool_decide (category t = Creative)) l)
  + sum_durations (List.filter (fun t => bool_decide (category t = Break)) l).
Proof.
  induction l as [|x l IH]; [reflexivity|].
  cbn [List.filter]. rewrite sum_durations_cons, IH.
  destruct (category x);
    repeat first [ rewrite bool_decide_eq_true_2 by reflexivity
                 | rewrite bool_decide_eq_false_2 by discriminate ];
    rewrite sum_durations_cons; lia.
Qed.

(** X3. The scheduled total is the sum of the durations of the placed
    tasks, whatever their order; the total of a category is the sum over the
    placed tasks of that category; and the four category totals add up to
    the scheduled total. *)
Theorem totals_by_category (p : PageState) :
  totalScheduled p = sum_durations (List.filter is_placed (tasks p)) /\
  (forall c : Category,
     total_of c (byCat p) =
     sum_durations
       (List.filter (fun t => bool_decide (category t = c)) (List.filter is_placed (tasks p)))) /\
  totalScheduled p =
    total_Focus (byCat p) + total_Admin (byCat p) + total_Creative (byCat p)
    + total_Break (byCat p).
Proof.
  assert (forall c : Category,
     total_of c (byCat p) =
     sum_durations
       (List.filter (fun t => bool_decide (category t = c)) (List.filter is_placed (tasks p))))
    as Hcat.
  { intros c. unfold byCat. rewrite byCat_fold. cbn [total_of total_Focus total_Admin
      total_Creative total_Break]. destruct c; cbn [total_of total_Focus total_Admin
      total_Creative total_Break]; rewrite Z.add_0_l; apply sum_durations_perm;
      unfold scheduled;
      apply filter_perm; apply sort_by_start_perm. }
  split; [apply totalScheduled_placed|]. split; [exact Hcat|].
  rewrite totalScheduled_placed.
  rewrite (sum_durations_by_category (List.filter is_placed (tasks p))).
  rewrite <- (Hcat Focus), <- (Hcat Admin), <- (Hcat Creative), <- (Hcat Break).
  reflexivity.
Qed.

(** ** How the mutators act on a collection *)

Lemma map_replace (pre post : list PlannerTask) (t : PlannerTask)
    (f : PlannerTask -> PlannerTask) :
  id t ∉ id <$> pre -> id t ∉ id <$> post ->
  (fun x => if id_is (id t) x then f x else x) <$> (pre ++ t :: post) = pre ++ f t :: post.
Proof.
  intros Hpre Hpost.
  rewrite fmap_app, fmap_cons.
  rewrite (map_absent _ f _ Hpre), (map_absent _ f _ Hpost).
  assert (id_is (id t) t = true) as -> by (apply id_is_true; reflexivity).
  reflexivity.
Qed.

Lemma filter_remove (pre post : list PlannerTask) (t : PlannerTask) :
  id t ∉ id <$> pre -> id t ∉ id <$> post ->
  List.filter (fun x => negb (id_is (id t) x)) (pre ++ t :: post) = pre ++ post.
Proof.
  intros Hpre Hpost.
  rewrite List.filter_app. cbn [List.filter].
  rewrite (filter_absent _ _ Hpre), (filter_absent _ _ Hpost).
  assert (id_is (id t) t = true) as -> by (apply id_is_true; reflexivity).
  reflexivity.
Qed.

Lemma find_task_none (taskId : string) (l : list PlannerTask) :
  find_task taskId l = None -> taskId ∉ id <$> l.
Proof.
  unfold find_task. intros Hfind Hin.
  apply list_elem_of_fmap in Hin as (x & -> & Hx).
  apply list_elem_of_In in Hx.
  apply (find_none _ _ Hfind) in Hx. apply id_is_false in Hx. congruence.
Qed.

(** What a task adds to the scheduled total. *)
Lemma placed_sum_middle (pre post : list PlannerTask) (t : PlannerTask) :
  sum_durations (List.filter is_placed (pre ++ t :: post)) =
  sum_durations (List.filter is_placed (pre ++ post))
  + (if is_placed t then durationMin t else 0).
Proof.
  rewrite !List.filter_app, !sum_durations_app. cbn [List.filter].
  destruct (is_placed t); rewrite ?sum_durations_cons; lia.
Qed.

(** X4. How a mutation of the one task with a given id moves the scheduled
    total: placing or moving it makes its duration count (once), resizing
    makes the new duration count, unscheduling and deleting remove what it
    counted for; a move of a placed task leaves the total as it was. *)
Theorem totalScheduled_after (pre post : list PlannerTask) (t : PlannerTask)
    (sel : option string) (n : nat) (m d' : Z) :
  id t ∉ id <$> pre -> id t ∉ id <$> post ->
  let p := mkPage (pre ++ t :: post) sel n in
  let counted := if is_placed t then durationMin t else 0 in
  totalScheduled (onSchedule (id t) m p) = totalScheduled p - counted + durationMin t /\
  totalScheduled (onMoveTask (id t) m p) = totalScheduled p - counted + durationMin t /\
  totalScheduled (onResizeTask (id t) m d' p) = totalScheduled p - counted + d' /\
  totalScheduled (onUnschedule (id t) p) = totalScheduled p - counted /\
  totalScheduled (onDelete (id t) p) = totalScheduled p - counted /\
  (is_placed t = true -> totalScheduled (onMoveTask (id t) m p) = totalScheduled p).
Proof.
  intros Hpre Hpost p counted.
  assert (totalScheduled (onMoveTask (id t) m p) = totalScheduled p - counted + durationMin t)
    as Hmove.
  { unfold onMoveTask. subst p. cbn [tasks].
    rewrite (find_task_first pre post t Hpre). cbn zeta.
    rewrite !totalScheduled_placed. cbn [tasks save].
    rewrite (map_replace pre post t _ Hpre Hpost), !placed_sum_middle.
    subst counted. cbn. lia. }
  unfold onSchedule, onResizeTask, onUnschedule, onDelete. cbn zeta.
  rewrite Hmove, !totalScheduled_placed. subst p. cbn [tasks save].
  rewrite !(map_replace pre post t _ Hpre Hpost), (filter_remove pre post t Hpre Hpost),
    !placed_sum_middle.
  subst counted. cbn. repeat split; try lia.
  intros ->. lia.
Qed.

Lemma fmap_field_kept {B : Type} (proj : PlannerTask -> B) (taskId : string)
    (f : PlannerTask -> PlannerTask) (l : list PlannerTask) :
  (forall x, proj (f x) = proj x) ->
  proj <$> ((fun x => if id_is taskId x then f x else x) <$> l) = proj <$> l.
Proof.
  intros Hf. rewrite <- list_fmap_compose. apply list_fmap_ext.
  intros i x _. cbn. destruct (id_is taskId x); [apply Hf | reflexivity].
Qed.

(** X5. Placing, moving, resizing and unscheduling never add, drop, reorder
    or rename a task, and never touch a title, an icon, a category or a
    color: the collection keeps these five lists of fields as they were. *)
Theorem mutators_keep_identity (p : PageState) (taskId : string) (m d' : Z) :
  let kept (q : PageState) :=
    id <$> tasks q = id <$> tasks p /\
    title <$> tasks q = title <$> tasks p /\
    icon <$> tasks q = icon <$> tasks p /\
    category <$> tasks q = category <$> tasks p /\
    color <$> tasks q = color <$> tasks p in
  kept (onSchedule taskId m p) /\
  kept (onMoveTask taskId m p) /\
  kept (onResizeTask taskId m d' p) /\
  kept (onUnschedule taskId p).
Proof.
  intros kept. subst kept. cbn beta.
  unfold onSchedule, onMoveTask, onResizeTask, onUnschedule. cbn zeta.
  destruct (find_task taskId (tasks p)); cbn [tasks save];
    repeat split; try reflexivity; apply fmap_field_kept; reflexivity.
Qed.

(** X6. The guard of [onMoveTask] changes nothing: moving is placing, for
    every collection and every id, present or not. *)
Theorem onMoveTask_is_onSchedule (p : PageState) (taskId : string) (m : Z) :
  onMoveTask taskId m p = onSchedule taskId m p.
Proof.
  unfold onMoveTask, onSchedule. cbn zeta.
  destruct (find_task taskId (tasks p)) as [t|] eqn:Hfind; [reflexivity|].
  apply find_task_none in Hfind.
  rewrite (map_absent taskId _ _ Hfind), save_same. reflexivity.
Qed.

Lemma map_twice (taskId : string) (f g h : PlannerTask -> PlannerTask)
    (l : list PlannerTask) :
  (forall x, id (f x) = id x) ->
  (forall x, g (f x) = h x) ->
  (fun x => if id_is taskId x then g x else x)
    <$> ((fun x => if id_is taskId x then f x else x) <$> l) =
  (fun x => if id_is taskId x then h x else x) <$> l.
Proof.
  intros Hid Hgf. rewrite <- list_fmap_compose. apply list_fmap_ext.
  intros i x _. cbn. destruct (id_is taskId x) eqn:Hx; [|rewrite Hx; reflexivity].
  assert (id_is taskId (f x) = true) as ->.
  { apply id_is_true. rewrite Hid. apply id_is_true. exact Hx. }
  apply Hgf.
Qed.

(** X7. On one id the last write wins: a placement overwrites an earlier
    placement or unscheduling, an unscheduling overwrites an earlier
    placement, a resize overwrites an earlier resize, and deleting twice is
    deleting once. *)
Theorem last_write_wins (p : PageState) (taskId : string) (m1 m2 d1 d2 : Z) :
  onSchedule taskId m2 (onSchedule taskId m1 p) = onSchedule taskId m2 p /\
  onSchedule taskId m2 (onUnschedule taskId p) = onSchedule taskId m2 p /\
  onUnschedule taskId (onSchedule taskId m1 p) = onUnschedule taskId p /\
  onResizeTask taskId m2 d2 (onResizeTask taskId m1 d1 p) = onResizeTask taskId m2 d2 p /\
  onDelete taskId (onDelete taskId p) = onDelete taskId p.
Proof.
  unfold onSchedule, onUnschedule, onResizeTask, onDelete, save. cbn [tasks selectedId uuidCalls].
  repeat split; f_equal; try (apply map_twice; reflexivity).
  induction (tasks p) as [|x l IH]; cbn [List.filter]; [reflexivity|].
  destruct (id_is taskId x) eqn:Hx; cbn [negb List.filter]; [exact IH|].
  rewrite Hx. cbn [negb]. f_equal. exact IH.
Qed.

(** X8. Mutations of two different ids do not interfere: placing one task
    and placing, unscheduling or deleting another can be done in either
    order. *)
Theorem mutations_commute (p : PageState) (i j : string) (m m' : Z) :
  i <> j ->
  onSchedule i m (onSchedule j m' p) = onSchedule j m' (onSchedule i m p) /\
  onSchedule i m (onUnschedule j p) = onUnschedule j (onSchedule i m p) /\
  onSchedule i m (onDelete j p) = onDelete j (onSchedule i m p).
Proof.
  intros Hij.
  assert (forall x, id_is i x = true -> id_is j x = false) as Hexcl.
  { intros x Hx. apply id_is_true in Hx. apply id_is_false. congruence. }
  unfold onSchedule, onUnschedule, onDelete, save. cbn [tasks selectedId uuidCalls].
  repeat split; f_equal.
  - rewrite <- !list_fmap_compose. apply list_fmap_ext. intros k x _. cbn.
    destruct (id_is i x) eqn:Hi, (id_is j x) eqn:Hj; unfold id_is in *; cbn [id with_startMin];
      rewrite ?Hi, ?Hj; try reflexivity.
    rewrite (Hexcl x Hi) in Hj. discriminate.
  - rewrite <- !list_fmap_compose. apply list_fmap_ext. intros k x _. cbn.
    destruct (id_is i x) eqn:Hi, (id_is j x) eqn:Hj; unfold id_is in *; cbn [id with_startMin];
      rewrite ?Hi, ?Hj; try reflexivity.
    rewrite (Hexcl x Hi) in Hj. discriminate.
  - induction (tasks p) as [|x l IH]; [reflexivity|].
    cbn [List.filter fmap list_fmap]. fold (@fmap list _ PlannerTask PlannerTask).
    destruct (id_is j x) eqn:Hj; cbn [negb].
    + destruct (id_is i x) eqn:Hi; [rewrite (Hexcl x Hi) in Hj; discriminate|].
      cbn [List.filter]. rewrite Hj. cbn [negb]. exact IH.
    + rewrite fmap_cons. destruct (id_is i x) eqn:Hi; cbn [List.filter].
      * assert (id_is j (with_startMin (Some m) x) = false) as -> by exact Hj.
        cbn [negb]. f_equal. exact IH.
      * rewrite Hj. cbn [negb]. f_equal. exact IH.
Qed.

Lemma delete_mem (taskId : string) (l : list PlannerTask) (t : PlannerTask) :
  t ∈ List.filter (fun x => negb (id_is taskId x)) l <-> t ∈ l /\ id t <> taskId.
Proof.
  rewrite !list_elem_of_In, List.filter_In, negb_true_iff, id_is_false. reflexivity.
Qed.

Lemma delete_sublist (taskId : string) (l : list PlannerTask) :
  List.filter (fun x => negb (id_is taskId x)) l `sublist_of` l.
Proof.
  induction l as [|x l IH]; cbn [List.filter].
  - constructor.
  - destruct (negb (id_is taskId x)).
    + apply sublist_skip. exact IH.
    + apply sublist_cons. exact IH.
Qed.

(** X9. Deleting removes every task with the given id and nothing else: the
    id is gone from the collection, the tasks left are those with another
    id, in the order they had. *)
Theorem onDelete_removes (p : PageState) (taskId : string) :
  (taskId ∉ id <$> tasks (onDelete taskId p)) /\
  (forall t : PlannerTask,
     t ∈ tasks (onDelete taskId p) <-> t ∈ tasks p /\ id t <> taskId) /\
  tasks (onDelete taskId p) `sublist_of` tasks p /\
  selectedId (onDelete taskId p) = selectedId p.
Proof.
  unfold onDelete, save. cbn [tasks selectedId].
  split; [|split; [apply delete_mem|split; [apply delete_sublist|reflexivity]]].
  intros Hin. apply list_elem_of_fmap in Hin as (x & Hx & Hin).
  apply delete_mem in Hin as [_ Hne]. congruence.
Qed.

(** ** Unique identifiers *)

Lemma find_task_split (taskId : string) (l : list PlannerTask) (t : PlannerTask) :
  find_task taskId l = Some t ->
  exists pre post : list PlannerTask,
    l = pre ++ t :: post /\ id t = taskId /\ taskId ∉ id <$> pre.
Proof.
  unfold find_task. induction l as [|x l IH]; cbn [find]; [discriminate|].
  destruct (id_is taskId x) eqn:Hx.
  - intros [= ->]. exists [], l. split; [reflexivity|]. split.
    + apply id_is_true. exact Hx.
    + apply not_elem_of_nil.
  - intros Hfind. destruct (IH Hfind) as (pre & post & -> & Hid & Hpre).
    exists (x :: pre), post. split; [reflexivity|]. split; [exact Hid|].
    rewrite fmap_cons. apply not_elem_of_cons. split; [|exact Hpre].
    apply id_is_false in Hx. congruence.
Qed.

Lemma NoDup_ids_middle (pre post : list PlannerTask) (t : PlannerTask) :
  NoDup (id <$> (pre ++ t :: post)) ->
  (id t ∉ id <$> pre) /\ (id t ∉ id <$> post) /\ NoDup (id <$> (pre ++ post)).
Proof.
  rewrite !fmap_app, fmap_cons. intros Hnd.
  apply NoDup_app in Hnd as (Hpre & Hdisj & Hrest).
  apply NoDup_cons in Hrest as [Hpost Hnd].
  split; [|split; [exact Hpost|]].
  - intros Hin. apply (Hdisj _ Hin). left.
  - apply NoDup_app. split; [exact Hpre|]. split; [|exact Hnd].
    intros x Hx Hx'. apply (Hdisj x Hx). right. exact Hx'.
Qed.

(** X10. Unique ids are an invariant of the page: if no two tasks of the
    collection share an id, none do after a placement, a move, a resize, an
    unscheduling or a deletion; none do after a split when the two
    identifiers [uuid()] returns are new to the collection and differ; and
    none do after adding a task whose id is new. *)
Theorem unique_ids_invariant (uuid : nat -> string) (p : PageState) (taskId : string)
    (m d' : Z) (task : PlannerTask) :
  NoDup (id <$> tasks p) ->
  NoDup (id <$> tasks (onSchedule taskId m p)) /\
  NoDup (id <$> tasks (onMoveTask taskId m p)) /\
  NoDup (id <$> tasks (onResizeTask taskId m d' p)) /\
  NoDup (id <$> tasks (onUnschedule taskId p)) /\
  NoDup (id <$> tasks (onDelete taskId p)) /\
  (uuid (uuidCalls p) ∉ id <$> tasks p ->
   uuid (S (uuidCalls p)) ∉ id <$> tasks p ->
   uuid (uuidCalls p) <> uuid (S (uuidCalls p)) ->
   NoDup (id <$> tasks (onSplitTask uuid taskId m p))) /\
  (id task ∉ id <$> tasks p ->
   NoDup (id <$> (tasks p ++ [task]))).
Proof.
  intros Hnd.
  assert (forall f : PlannerTask -> PlannerTask, (forall x, id (f x) = id x) ->
    NoDup (id <$> ((fun x => if id_is taskId x then f x else x) <$> tasks p))) as Hmap.
  { intros f Hf. rewrite (fmap_field_kept id taskId f (tasks p) Hf). exact Hnd. }
  split; [apply Hmap; reflexivity|].
  split; [unfold onMoveTask; destruct (find_task taskId (tasks p));
          [apply Hmap; reflexivity | exact Hnd]|].
  split; [apply Hmap; reflexivity|].
  split; [apply Hmap; reflexivity|].
  split; [|split].
  - apply (sublist_NoDup _ (id <$> tasks p)); [exact Hnd|].
    apply fmap_sublist. apply delete_sublist.
  - intros Hu0 Hu1 Hne.
    destruct (find_task taskId (tasks p)) as [t|] eqn:Hfind;
      [|unfold onSplitTask; rewrite Hfind; exact Hnd].
    destruct (startMin t) as [s|] eqn:Hs;
      [|unfold onSplitTask; rewrite Hfind, Hs; exact Hnd].
    apply find_task_split in Hfind as (pre & post & Heq & <- & _).
    destruct p as [l sel n]. cbn [tasks uuidCalls] in *. subst l.
    destruct (NoDup_ids_middle pre post t Hnd) as (Hpre & Hpost & Hnd').
    rewrite (onSplitTask_placed uuid pre post t sel n s m Hs Hpre Hpost).
    cbn [tasks]. rewrite !fmap_app in *. cbn [fmap list_fmap id] in *.
    apply NoDup_app in Hnd' as (Hndpre & Hdisj & Hndpost).
    apply not_elem_of_app in Hu0 as [Hu0pre Hu0post].
    apply not_elem_of_app in Hu1 as [Hu1pre Hu1post].
    apply not_elem_of_cons in Hu0post as [_ Hu0post].
    apply not_elem_of_cons in Hu1post as [_ Hu1post].
    apply NoDup_app. split; [exact Hndpre|]. split.
    + intros x Hx Hx'.
      apply elem_of_cons in Hx' as [->|Hx']; [contradiction|].
      apply elem_of_cons in Hx' as [->|Hx']; [contradiction|].
      exact (Hdisj x Hx Hx').
    + apply NoDup_cons. split.
      * apply not_elem_of_cons. split; [exact Hne | exact Hu0post].
      * apply NoDup_cons. split; [exact Hu1post | exact Hndpost].
  - intros Hfresh. rewrite fmap_app. apply NoDup_app.
    split; [exact Hnd|]. split.
    + intros x Hx Hx'. cbn in Hx'. apply list_elem_of_singleton in Hx'. subst x.
      contradiction.
    + cbn. apply NoDup_singleton.
Qed.

(** ** More on the split *)

(** X11. The halves of a split tile the dial: the first starts where the
    task started, the second starts where the first ends, and, when the
    second half is not floored, it ends at the minute the task ended on. A
    split point on the 5-minute grid that leaves at least 5 minutes on both
    sides cuts exactly there. *)
Theorem onSplitTask_tiles (uuid : nat -> string) (pre post : list PlannerTask)
    (t : PlannerTask) (sel : option string) (n : nat) (s splitAtMin : Z) :
  startMin t = Some s ->
  0 <= s ->
  id t ∉ id <$> pre -> id t ∉ id <$> post ->
  exists (a b : PlannerTask) (sb : Z),
    tasks (onSplitTask uuid (id t) splitAtMin (mkPage (pre ++ t :: post) sel n)) =
      pre ++ [a; b] ++ post /\
    startMin a = Some s /\
    startMin b = Some sb /\
    sb = (s + durationMin a) mod 1440 /\
    (5 <= durationMin t - durationMin a ->
       (sb + durationMin b) mod 1440 = (s + durationMin t) mod 1440) /\
    (forall k : Z,
       1 <= k -> 5 * k + 5 <= durationMin t ->
       split_point s (durationMin t) splitAtMin = s + 5 * k ->
       durationMin a = 5 * k /\ durationMin b = durationMin t - 5 * k).
Proof.
  intros Hs Hs0 Hpre Hpost.
  rewrite (onSplitTask_placed uuid pre post t sel n s splitAtMin Hs Hpre Hpost).
  eexists _, _, _. split; [reflexivity|].
  cbn [tasks id title icon durationMin category color startMin].
  pose proof (split_durA_min s (durationMin t) splitAtMin) as HA.
  split; [reflexivity|]. split; [reflexivity|]. split; [|split].
  - unfold Js.rem. apply Z.rem_mod_nonneg; lia.
  - intros Hroom. unfold Js.rem. rewrite Z.rem_mod_nonneg by lia.
    rewrite Zplus_mod_idemp_l. f_equal.
    unfold split_durB, Js.max. lia.
  - intros k Hk Hroom Hgrid.
    assert (split_durA s (durationMin t) splitAtMin = 5 * k) as HdurA.
    { unfold split_durA, Js.max, Js.round_div. rewrite Hgrid.
      replace (2 * (s + 5 * k - s) + 5) with (5 + k * (2 * 5)) by lia.
      rewrite Z.div_add by lia. change (5 / (2 * 5)) with 0. lia. }
    split; [exact HdurA|]. unfold split_durB, Js.max. rewrite HdurA. lia.
Qed.

(** X12. A split never lowers the scheduled total: it adds
    [max 0 (durA + 5 - durationMin)] minutes to it, nothing when the second
    half is not floored. *)
Theorem onSplitTask_total (uuid : nat -> string) (pre post : list PlannerTask)
    (t : PlannerTask) (sel : option string) (n : nat) (s splitAtMin : Z) :
  startMin t = Some s ->
  id t ∉ id <$> pre -> id t ∉ id <$> post ->
  let p := mkPage (pre ++ t :: post) sel n in
  let durA := split_durA s (durationMin t) splitAtMin in
  totalScheduled (onSplitTask uuid (id t) splitAtMin p) =
    totalScheduled p + Z.max 0 (durA + 5 - durationMin t) /\
  totalScheduled p <= totalScheduled (onSplitTask uuid (id t) splitAtMin p).
Proof.
  intros Hs Hpre Hpost p durA. subst p.
  rewrite (onSplitTask_placed uuid pre post t sel n s splitAtMin Hs Hpre Hpost).
  rewrite !totalScheduled_placed. cbn [tasks].
  change (pre ++ [?a; ?b] ++ post) with (pre ++ a :: b :: post).
  rewrite (placed_sum_middle pre (_ :: post)).
  change (pre ++ ?b :: post) with (pre ++ b :: post).
  rewrite !(placed_sum_middle pre post).
  unfold is_placed. cbn [startMin durationMin]. rewrite Hs.
  unfold split_durB, Js.max. fold durA. lia.
Qed.

(** ** Creating and placing *)

Lemma scheduled_app_unplaced (l : list PlannerTask) (task : PlannerTask)
    (sel : option string) (n : nat) :
  startMin task = None ->
  scheduled (mkPage (l ++ [task]) sel n) = scheduled (mkPage l sel n).
Proof.
  intros Hnone. unfold scheduled. cbn [tasks].
  rewrite List.filter_app. cbn [List.filter]. unfold is_placed at 2.
  rewrite Hnone, app_nil_r. reflexivity.
Qed.

(** X13. A created task that is not placed goes to the end of the
    collection and of the unplaced list, closes the dialog, and leaves the
    scheduled view and the scheduled total as they were; deleting it again,
    its id being new, gives back the collection. *)
Theorem onCreate_unplaced (v : View) (task : PlannerTask) :
  startMin task = None ->
  tasks (page (onCreate task v)) = tasks (page v) ++ [task] /\
  open (onCreate task v) = false /\
  scheduled (page (onCreate task v)) = scheduled (page v) /\
  unplaced (page (onCreate task v)) = unplaced (page v) ++ [task] /\
  totalScheduled (page (onCreate task v)) = totalScheduled (page v) /\
  (id task ∉ id <$> tasks (page v) ->
   onDelete (id task) (page (onCreate task v)) = page v).
Proof.
  intros Hnone. destruct v as [[l sel n] o tm h pl].
  unfold onCreate, save. cbn [page tasks selectedId uuidCalls open].
  split; [reflexivity|]. split; [reflexivity|].
  split; [apply scheduled_app_unplaced; exact Hnone|]. split; [|split].
  - unfold unplaced. cbn [tasks]. rewrite List.filter_app. cbn [List.filter].
    unfold is_placed at 2. rewrite Hnone. reflexivity.
  - unfold totalScheduled. rewrite (scheduled_app_unplaced l task sel n Hnone). reflexivity.
  - intros Hfresh. unfold onDelete, save. cbn [tasks selectedId uuidCalls].
    f_equal. rewrite List.filter_app, (filter_absent _ _ Hfresh). cbn [List.filter].
    assert (id_is (id task) task = true) as -> by (apply id_is_true; reflexivity).
    apply app_nil_r.
Qed.

(** X14. Create, ask to place, tap: a new unplaced task with a non-empty
    new id ends up placed at the tapped minute, at the end of the
    collection; the page stops placing, the scheduled total grows by the
    duration of the task, and a further tap does nothing. *)
Theorem create_place_tap (v : View) (t : PlannerTask) (m m' : Z) :
  startMin t = None ->
  id t <> ""%string ->
  id t ∉ id <$> tasks (page v) ->
  let v' := onTapPlace m (onRequestPlace (id t) (onCreate t v)) in
  tasks (page v') = tasks (page v) ++ [with_startMin (Some m) t] /\
  placingTaskId v' = None /\
  totalScheduled (page v') = totalScheduled (page v) + durationMin t /\
  onTapPlace m' v' = v'.
Proof.
  intros Hnone Hid Hfresh v'. subst v'.
  destruct v as [[l sel n] o tm h pl]. cbn [page tasks] in Hfresh.
  unfold onTapPlace, onRequestPlace, onCreate, truthy_string.
  cbn [placingTaskId page open timeMode half].
  assert (String.eqb (id t) "" = false) as -> by (apply String.eqb_neq; exact Hid).
  cbn [negb]. unfold onSchedule, save. cbn [tasks selectedId uuidCalls page placingTaskId].
  rewrite fmap_app, (map_absent _ _ _ Hfresh). cbn [fmap list_fmap].
  assert (id_is (id t) t = true) as -> by (apply id_is_true; reflexivity).
  split; [reflexivity|]. split; [reflexivity|]. split; [|reflexivity].
  rewrite !totalScheduled_placed. cbn [tasks].
  rewrite List.filter_app, sum_durations_app. cbn. lia.
Qed.

(** ** The selection *)

Lemma find_id_absent (sid : string) (l : list PlannerTask) :
  (forall x, x ∈ l -> id x <> sid) -> List.find (id_is sid) l = None.
Proof.
  induction l as [|x l IH]; intros Hall; cbn [find]; [reflexivity|].
  assert (id_is sid x = false) as ->.
  { apply id_is_false. apply Hall. left. }
  apply IH. intros y Hy. apply Hall. right. exact Hy.
Qed.

Lemma in_scheduled (p : PageState) (t : PlannerTask) :
  t ∈ scheduled p <-> t ∈ tasks p /\ is_placed t = true.
Proof. unfold scheduled. rewrite sort_by_start_perm. apply in_filter_placed. Qed.

(** X15. The selected task, when there is one, is a placed task of the
    collection that has the selected id; and when ids are unique it is the
    task with the selected id, provided that task is placed. *)
Theorem selected_sound (p : PageState) (t : PlannerTask) :
  (selected p = Some t ->
   selectedId p = Some (id t) /\ t ∈ tasks p /\ exists s : Z, startMin t = Some s) /\
  (NoDup (id <$> tasks p) ->
   t ∈ tasks p -> selectedId p = Some (id t) -> is_placed t = true ->
   selected p = Some t).
Proof.
  split.
  - unfold selected. destruct (selectedId p) as [sid|]; [|discriminate].
    intros Hfind. apply find_some in Hfind as [Hin Hid].
    apply list_elem_of_In, in_scheduled in Hin as [Hin Hplaced].
    apply id_is_true in Hid. subst sid. split; [reflexivity|]. split; [exact Hin|].
    unfold is_placed in Hplaced. destruct (startMin t) as [s|]; [eauto|discriminate].
  - intros Hnd Hin Hsel Hplaced. unfold selected. rewrite Hsel.
    destruct (List.find (id_is (id t)) (scheduled p)) as [t'|] eqn:Hfind.
    + apply find_some in Hfind as [Hin' Hid].
      apply list_elem_of_In, in_scheduled in Hin' as [Hin' _].
      apply id_is_true in Hid. f_equal.
      apply list_elem_of_lookup_1 in Hin as [i Hi].
      apply list_elem_of_lookup_1 in Hin' as [j Hj].
      assert (i = j) as ->.
      { apply (NoDup_lookup (id <$> tasks p) i j (id t)); [exact Hnd| |].
        - rewrite list_lookup_fmap, Hi. reflexivity.
        - rewrite list_lookup_fmap, Hj. cbn. congruence. }
      congruence.
    + exfalso.
      assert (id_is (id t) t = false) as Hno.
      { apply (find_none _ _ Hfind t).
        apply list_elem_of_In, in_scheduled. split; assumption. }
      apply id_is_false in Hno. congruence.
Qed.

(** X16. A selection never dangles on the dial: once the selected task is
    deleted or unscheduled there is no selected task, so Focus Mode is off
    and the countdown is 0; and a split that goes through clears the
    selection. *)
Theorem selection_cleared (uuid : nat -> string) (p : PageState) (sid : string)
    (now : Clock) :
  (selectedId p = Some sid ->
   selected (onDelete sid p) = None /\
   selected (onUnschedule sid p) = None /\
   isActive (onDelete sid p) now = false /\
   isActive (onUnschedule sid p) now = false /\
   remaining (onDelete sid p) now = 0 /\
   remaining (onUnschedule sid p) now = 0) /\
  (forall (taskId : string) (splitAtMin : Z) (t : PlannerTask) (s : Z),
     find_task taskId (tasks p) = Some t -> startMin t = Some s ->
     selectedId (onSplitTask uuid taskId splitAtMin p) = None /\
     selected (onSplitTask uuid taskId splitAtMin p) = None /\
     isActive (onSplitTask uuid taskId splitAtMin p) now = false /\
     remaining (onSplitTask uuid taskId splitAtMin p) now = 0).
Proof.
  split.
  - intros Hsel.
    assert (selected (onDelete sid p) = None) as Hdel.
    { unfold selected. cbn [onDelete save selectedId]. rewrite Hsel.
      apply find_id_absent. intros x Hx. apply in_scheduled in Hx as [Hx _].
      unfold onDelete in Hx. cbn [tasks save] in Hx.
      apply delete_mem in Hx. tauto. }
    assert (selected (onUnschedule sid p) = None) as Huns.
    { unfold selected. cbn [onUnschedule save selectedId]. rewrite Hsel.
      apply find_id_absent. intros x Hx. apply in_scheduled in Hx as [Hx Hplaced].
      unfold onUnschedule in Hx. cbn [tasks save] in Hx.
      apply list_elem_of_fmap in Hx as (y & -> & _).
      destruct (id_is sid y) eqn:Hy; [discriminate Hplaced|].
      apply id_is_false. exact Hy. }
    unfold isActive, remaining. rewrite Hdel, Huns. repeat split.
  - intros taskId splitAtMin t s Hfind Hs.
    assert (selectedId (onSplitTask uuid taskId splitAtMin p) = None) as Hnone.
    { unfold onSplitTask. rewrite Hfind, Hs. reflexivity. }
    assert (selected (onSplitTask uuid taskId splitAtMin p) = None) as Hsel.
    { unfold selected. rewrite Hnone. reflexivity. }
    unfold isActive, remaining. rewrite Hsel. repeat split. exact Hnone.
Qed.

(** ** Active task and countdown *)

Lemma within_frame (now s d : Z) :
  within now s d = true <->
  s <= (if decide (now < s) then now + 1440 else now)
    <= (if decide (s + d <= s) then s + d + 1440 else s + d).
Proof.
  unfold within. cbn zeta.
  rewrite andb_true_iff, Z.geb_le, Z.leb_le.
  destruct (Z.leb_spec (s + d) s), (Z.ltb_spec now s); repeat case_decide; lia.
Qed.

(** X17. On the dial, [within] is a test on the circular distance from the
    start: for minutes of the day [s] and [now] and a duration of at least
    a minute, it holds exactly when [(now - s) mod 1440 <= d]. A duration of
    0 is taken for a whole day: such a task is active at every minute. *)
Theorem within_modular (now s d : Z) :
  0 <= s <= 1439 -> 0 <= now <= 1439 ->
  (1 <= d -> (within now s d = true <-> (now - s) mod 1440 <= d)) /\
  (d = 0 -> within now s d = true).
Proof.
  intros Hs Hnow.
  pose proof (within_frame now s d) as Hchar.
  pose proof (Z.mod_pos_bound (now - s) 1440 ltac:(lia)) as Hb.
  pose proof (Z.div_mod (now - s) 1440 ltac:(lia)) as Hdm.
  split.
  - intros Hd. rewrite Hchar. repeat case_decide; lia.
  - intros ->. apply Hchar. repeat case_decide; lia.
Qed.

(** X18. While the selected task is active the countdown runs to its end:
    for a task shorter than a day, [remaining] is the number of seconds from
    [now] to the end of the task, in the frame [within] uses, so it lies
    between -59 and 60 times the duration. *)
Theorem remaining_when_active (p : PageState) (now : Clock) (sel : PlannerTask) (s : Z) :
  selected p = Some sel ->
  startMin sel = Some s ->
  0 <= s <= 1439 -> 0 <= nowMin now <= 1439 ->
  1 <= durationMin sel < 1440 ->
  isActive p now = true ->
  let e := s + durationMin sel in
  let now' := if decide (nowMin now < s) then nowMin now + 1440 else nowMin now in
  remaining p now = (e - now') * 60 - getSeconds now /\
  (0 <= getSeconds now <= 59 -> -59 <= remaining p now <= 60 * durationMin sel).
Proof.
  intros Hsel Hs Hs0 Hnow Hd Hactive e now'.
  unfold isActive in Hactive. rewrite Hsel, Hs in Hactive.
  apply within_frame in Hactive.
  unfold remaining, Js.rem. rewrite Hsel, Hs.
  change (24 * 60) with 1440. rewrite Z.rem_mod_nonneg by lia.
  assert ((s + durationMin sel - nowMin now + 1440) mod 1440 = e - now') as ->.
  { subst e now'. repeat case_decide; try lia.
    - symmetry. apply (Z.mod_unique _ _ 2); lia.
    - symmetry. apply (Z.mod_unique _ _ 1); lia. }
  split; [reflexivity|]. intros Hsec. subst e now'. repeat case_decide; lia.
Qed.

(** ** Two-digit fields *)

Lemma two_digits_length (n : Z) :
  0 <= n < 100 -> String.length (two_digits n) = 2%nat.
Proof.
  intros Hn.
  assert (Forall (fun k => String.length (two_digits k) = 2%nat) (seqZ 0 100)) as Hall
    by by_evaluation.
  rewrite Forall_seqZ in Hall. apply Hall. lia.
Qed.

Lemma two_digits_inj (n n' : Z) :
  0 <= n < 100 -> 0 <= n' < 100 -> two_digits n = two_digits n' -> n = n'.
Proof.
  intros Hn Hn'.
  assert (Forall (fun k => Forall (fun k' => two_digits k = two_digits k' -> k = k')
                             (seqZ 0 100)) (seqZ 0 100)) as Hall by by_evaluation.
  rewrite Forall_seqZ in Hall. specialize (Hall n ltac:(lia)).
  rewrite Forall_seqZ in Hall. apply Hall. lia.
Qed.

Lemma string_app_length (a b : string) :
  String.length (a +:+ b) = (String.length a + String.length b)%nat.
Proof.
  induction a as [|c a IH]; [reflexivity|].
  change (S (String.length (a +:+ b)) = S (String.length a + String.length b)).
  f_equal. exact IH.
Qed.

Lemma string_app_inj_length (a a' b b' : string) :
  String.length a = String.length a' -> (a +:+ b = a' +:+ b')%string -> a = a' /\ b = b'.
Proof.
  revert a'. induction a as [|c a IH]; intros [|c' a'] Hlen Heq; try discriminate Hlen.
  - split; [reflexivity | exact Heq].
  - change (String c (a +:+ b) = String c' (a' +:+ b')) in Heq.
    injection Heq as -> Heq. injection Hlen as Hlen.
    destruct (IH a' Hlen Heq) as [-> ->]. split; reflexivity.
Qed.

Lemma two_fields_inj (sep : string) (h m h' m' : Z) :
  0 <= h < 100 -> 0 <= m < 100 -> 0 <= h' < 100 -> 0 <= m' < 100 ->
  (two_digits h +:+ sep +:+ two_digits m = two_digits h' +:+ sep +:+ two_digits m')%string ->
  h = h' /\ m = m'.
Proof.
  intros Hh Hm Hh' Hm' Heq.
  apply string_app_inj_length in Heq as [Hhh Heq];
    [|rewrite !two_digits_length by assumption; reflexivity].
  apply string_app_inj_length in Heq as [_ Hmm]; [|reflexivity].
  split; apply two_digits_inj; assumption.
Qed.

(** X19. The countdown never shows a negative time: a remaining time of 0
    or less reads [00:00]. From 0 on it reads the whole minutes and the
    seconds of the remaining time, two digits each; below 100 minutes that
    is five characters, and two different remaining times read differently. *)
Theorem countdownText_display (r r' : Z) :
  (r <= 0 -> countdownText r = "00:00"%string) /\
  (0 <= r ->
   countdownText r = (two_digits (r / 60) +:+ ":" +:+ two_digits (r mod 60))%string) /\
  (0 <= r < 6000 -> String.length (countdownText r) = 5%nat) /\
  (0 <= r < 6000 -> 0 <= r' < 6000 -> countdownText r = countdownText r' -> r = r').
Proof.
  assert (forall k, 0 <= k ->
    countdownText k = (two_digits (k / 60) +:+ ":" +:+ two_digits (k mod 60))%string) as Hshape.
  { intros k Hk. unfold countdownText, two_digits, Js.max, Js.floor_div, Js.rem.
    rewrite Z.max_r by lia. rewrite Z.rem_mod_nonneg by lia. reflexivity. }
  assert (forall k, 0 <= k < 6000 -> 0 <= k / 60 < 100 /\ 0 <= k mod 60 < 100) as Hrange.
  { intros k Hk. pose proof (Z.mod_pos_bound k 60 ltac:(lia)).
    pose proof (Z.div_mod k 60 ltac:(lia)). lia. }
  split; [|split; [|split]].
  - intros Hr. unfold countdownText, Js.max. rewrite Z.max_l by lia. reflexivity.
  - apply Hshape.
  - intros Hr. destruct (Hrange r Hr) as [Hq Hm].
    rewrite Hshape by lia. rewrite !string_app_length, !two_digits_length by assumption.
    reflexivity.
  - intros Hr Hr'. rewrite !Hshape by lia. intros Heq.
    destruct (Hrange r Hr) as [Hq Hm]. destruct (Hrange r' Hr') as [Hq' Hm'].
    apply two_fields_inj in Heq as [Hqq Hmm]; try assumption.
    pose proof (Z.div_mod r 60 ltac:(lia)). pose proof (Z.div_mod r' 60 ltac:(lia)). lia.
Qed.

(** X20. [minutesToTime] writes a minute count below 6000 as four
    characters, the hours then the minutes of the hour, and different
    counts give different strings; it does not wrap at midnight, so the
    time of a minute of the next day differs from the time of the same
    minute of the day. *)
Theorem minutesToTime_fields (m m' : Z) :
  (0 <= m ->
   minutesToTime m = (two_digits (m / 60) +:+ two_digits (m mod 60))%string) /\
  (0 <= m < 6000 -> String.length (minutesToTime m) = 4%nat) /\
  (0 <= m < 6000 -> 0 <= m' < 6000 -> minutesToTime m = minutesToTime m' -> m = m') /\
  (0 <= m < 1440 -> minutesToTime (m + 1440) <> minutesToTime m).
Proof.
  assert (forall k, 0 <= k ->
    minutesToTime k = (two_digits (k / 60) +:+ "" +:+ two_digits (k mod 60))%string) as Hshape.
  { intros k Hk. unfold minutesToTime, two_digits, Js.floor_div, Js.rem. cbn zeta.
    rewrite Z.rem_mod_nonneg by lia. reflexivity. }
  assert (forall k, 0 <= k < 6000 -> 0 <= k / 60 < 100 /\ 0 <= k mod 60 < 100) as Hrange.
  { intros k Hk. pose proof (Z.mod_pos_bound k 60 ltac:(lia)).
    pose proof (Z.div_mod k 60 ltac:(lia)). lia. }
  assert (forall k k', 0 <= k < 6000 -> 0 <= k' < 6000 ->
    minutesToTime k = minutesToTime k' -> k = k') as Hinj.
  { intros k k' Hk Hk'. rewrite !Hshape by lia. intros Heq.
    destruct (Hrange k Hk) as [Hq Hm]. destruct (Hrange k' Hk') as [Hq' Hm'].
    apply two_fields_inj in Heq as [Hqq Hmm]; try assumption.
    pose proof (Z.div_mod k 60 ltac:(lia)). pose proof (Z.div_mod k' 60 ltac:(lia)). lia. }
  split; [|split; [|split]].
  - apply Hshape.
  - intros Hm. destruct (Hrange m Hm) as [Hq Hr].
    rewrite Hshape by lia. rewrite !string_app_length, !two_digits_length by assumption.
    reflexivity.
  - apply Hinj.
  - intros Hm Heq. apply Hinj in Heq; lia.
Qed.

(** X21. [formatTotal] shows nothing exactly for a negative total. A total
    of [h] hours and [m] minutes shows the hours followed by [h] when there
    are any, then the minutes followed by [m] when there are any, and [0m]
    when there is neither. *)
Theorem formatTotal_shape (mins : Z) :
  (formatTotal mins = ""%string <-> mins < 0) /\
  (forall h m : Z,
     0 <= h -> 0 <= m < 60 -> mins = 60 * h + m ->
     formatTotal mins =
       ((if decide (h = 0) then "" else Js.toString h +:+ "h")
        +:+ (if decide (m = 0) then (if decide (h = 0) then "0m" else "")
             else Js.toString m +:+ "m"))%string).
Proof.
  assert (forall h m : Z,
     0 <= h -> 0 <= m < 60 -> mins = 60 * h + m ->
     formatTotal mins =
       ((if decide (h = 0) then "" else Js.toString h +:+ "h")
        +:+ (if decide (m = 0) then (if decide (h = 0) then "0m" else "")
             else Js.toString m +:+ "m"))%string) as Hshape.
  { intros h m Hh Hm ->. unfold formatTotal, Js.floor_div, Js.rem. cbn zeta.
    rewrite Z.rem_mod_nonneg by lia.
    replace ((60 * h + m) / 60) with h by (apply (Z.div_unique _ _ _ m); lia).
    replace ((60 * h + m) mod 60) with m by (apply (Z.mod_unique _ _ h); lia).
    destruct (Z.gtb_spec h 0), (Z.gtb_spec m 0), (Z.eqb_spec h 0);
      repeat case_decide; try lia; reflexivity. }
  split; [|exact Hshape]. split.
  - intros Hempty. destruct (Z.lt_ge_cases mins 0) as [Hneg|Hpos]; [exact Hneg|].
    exfalso.
    pose proof (Z.mod_pos_bound mins 60 ltac:(lia)) as Hm.
    pose proof (Z.div_mod mins 60 ltac:(lia)) as Hdm.
    rewrite (Hshape (mins / 60) (mins mod 60)) in Hempty by lia.
    repeat case_decide; try discriminate Hempty.
    + destruct (Js.toString (mins mod 60)); discriminate Hempty.
    + destruct (Js.toString (mins / 60)); discriminate Hempty.
    + destruct (Js.toString (mins / 60)); discriminate Hempty.
  - intros Hneg. unfold formatTotal, Js.floor_div, Js.rem. cbn zeta.
    pose proof (Z.mod_pos_bound mins 60 ltac:(lia)) as Hm.
    pose proof (Z.div_mod mins 60 ltac:(lia)) as Hdm.
    pose proof (Z.rem_nonpos mins 60 ltac:(lia) ltac:(lia)) as Hrem.
    destruct (Z.gtb_spec (mins / 60) 0); [lia|].
    destruct (Z.gtb_spec (Z.rem mins 60) 0); [lia|].
    destruct (Z.eqb_spec (mins / 60) 0); [lia|]. reflexivity.
Qed.

(** ** Export: the alert and the empty calendar *)




(** ** The task form *)

Lemma form_reachable_choices (f : FormState) :
  form_reachable f -> form_duration f ∈ DURATIONS /\ form_icon f ∈ ICONS.
Proof.
  induction 1 as [|f g _ [Hd Hi] Hstep].
  - split; by_evaluation.
  - destruct Hstep; cbn [form_duration form_icon]; split; assumption.
Qed.

(** X23. What the form hands to [onCreate]: nothing when the trimmed title
    is empty; otherwise an unplaced task with the given id, the trimmed,
    non-empty title, one of the nine icons and one of the five durations,
    hence a duration between 15 and 90 minutes. *)
Theorem handleCreate_task (trim : string -> string) (newId : string) (f : FormState) :
  form_reachable f ->
  (handleCreate trim newId f = None <-> trim (form_title f) = ""%string) /\
  (forall t : PlannerTask,
     handleCreate trim newId f = Some t ->
     id t = newId /\ startMin t = None /\
     title t = trim (form_title f) /\ title t <> ""%string /\
     icon t ∈ ICONS /\ durationMin t ∈ DURATIONS /\ 15 <= durationMin t <= 90 /\
     category t = form_category f /\ color t = form_color f).
Proof.
  intros Hreach. destruct (form_reachable_choices f Hreach) as [Hd Hi].
  unfold handleCreate, canCreate.
  destruct (trim (form_title f)) as [|c s] eqn:Htitle; cbn [String.length Nat.ltb Nat.leb negb].
  - split; [split; reflexivity|]. intros t Ht. discriminate Ht.
  - split; [split; discriminate|]. intros t [= <-].
    cbn [id startMin title icon durationMin category color].
    assert (15 <= form_duration f <= 90) as Hbound.
    { pose proof Hd as Hd'. unfold DURATIONS in Hd'.
      repeat (apply elem_of_cons in Hd' as [->|Hd']; [lia|]). inversion Hd'. }
    repeat split; try assumption; try discriminate; lia.
Qed.

(** ** The dial mode *)

(** X24. Toggling the dial mode twice gives back the mode and never touches
    the tasks or the task being placed, but not always the half: entering
    12-hour mode sets the half from the hour of the clock (AM before noon),
    leaving it keeps the half. *)
Theorem toggleTimeMode_twice (hours hours' : Z) (v : View) :
  timeMode (toggleTimeMode hours' (toggleTimeMode hours v)) = timeMode v /\
  page (toggleTimeMode hours v) = page v /\
  placingTaskId (toggleTimeMode hours v) = placingTaskId v /\
  (timeMode v = Mode24h ->
   timeMode (toggleTimeMode hours v) = Mode12h /\
   (half (toggleTimeMode hours v) = AM <-> hours < 12) /\
   half (toggleTimeMode hours' (toggleTimeMode hours v)) = half (toggleTimeMode hours v)) /\
  (timeMode v = Mode12h ->
   timeMode (toggleTimeMode hours v) = Mode24h /\
   half (toggleTimeMode hours v) = half v /\
   (half (toggleTimeMode hours' (toggleTimeMode hours v)) = AM <-> hours' < 12)).
Proof.
  unfold toggleTimeMode.
  destruct (timeMode v) eqn:Hmode; cbn [timeMode half page placingTaskId open];
    (split; [reflexivity|]); (split; [reflexivity|]); (split; [reflexivity|]);
    split; try discriminate; intros _; (split; [reflexivity|]).
  - split; [|reflexivity]. destruct (Z.ltb_spec hours 12); split; try lia;
      try reflexivity; discriminate.
  - split; [reflexivity|]. destruct (Z.ltb_spec hours' 12); split; try lia;
      try reflexivity; discriminate.
Qed.

(** ** The further theorems at the sample data *)

Lemma totalScheduled_after_witness :
  (id idea ∉ id <$> [report; late]) /\
  (id idea ∉ id <$> []) /\
  totalScheduled (onSchedule (id idea) 600 (mkPage ([report; late] ++ idea :: []) None 0)) =
    totalScheduled (mkPage ([report; late] ++ idea :: []) None 0) - 0 + durationMin idea.
Proof.
  assert (id idea ∉ id <$> [report; late]) as Hpre by by_evaluation.
  assert (id idea ∉ id <$> []) as Hpost by by_evaluation.
  split; [exact Hpre|]. split; [exact Hpost|].
  exact (proj1 (totalScheduled_after [report; late] [] idea None 0%nat 600 45 Hpre Hpost)).
Defined.

Lemma mutations_commute_witness :
  "t1"%string <> "t2"%string /\
  onSchedule "t1" 600 (onSchedule "t2" 700 sample_page) =
    onSchedule "t2" 700 (onSchedule "t1" 600 sample_page).
Proof.
  assert ("t1"%string <> "t2"%string) as Hne by discriminate.
  split; [exact Hne|].
  exact (proj1 (mutations_commute sample_page "t1" "t2" 600 700 Hne)).
Defined.

Lemma unique_ids_invariant_witness :
  NoDup (id <$> tasks sample_page) /\
  (sample_uuid (uuidCalls sample_page) ∉ id <$> tasks sample_page) /\
  (sample_uuid (S (uuidCalls sample_page)) ∉ id <$> tasks sample_page) /\
  sample_uuid (uuidCalls sample_page) <> sample_uuid (S (uuidCalls sample_page)) /\
  NoDup (id <$> tasks (onDelete "t2" sample_page)) /\
  NoDup (id <$> tasks (onSplitTask sample_uuid "t2" 10 sample_page)).
Proof.
  assert (NoDup (id <$> tasks sample_page)) as Hnd by by_evaluation.
  assert (sample_uuid (uuidCalls sample_page) ∉ id <$> tasks sample_page) as H0
    by by_evaluation.
  assert (sample_uuid (S (uuidCalls sample_page)) ∉ id <$> tasks sample_page) as H1
    by by_evaluation.
  assert (sample_uuid (uuidCalls sample_page) <> sample_uuid (S (uuidCalls sample_page)))
    as Hne by by_evaluation.
  split; [exact Hnd|]. split; [exact H0|]. split; [exact H1|]. split; [exact Hne|].
  pose proof (unique_ids_invariant sample_uuid sample_page "t2" 10 45 midnight Hnd) as H.
  split; [exact (proj1 (proj2 (proj2 (proj2 (proj2 H)))))|].
  exact (proj1 (proj2 (proj2 (proj2 (proj2 (proj2 H))))) H0 H1 Hne).
Defined.

Lemma onSplitTask_tiles_witness :
  startMin late = Some 1430 /\
  0 <= 1430 /\
  (id late ∉ id <$> [report]) /\
  (id late ∉ id <$> [idea]) /\
  exists (a b : PlannerTask) (sb : Z),
    tasks (onSplitTask sample_uuid (id late) 10 (mkPage ([report] ++ late :: [idea]) None 0)) =
      [report] ++ [a; b] ++ [idea] /\
    startMin a = Some 1430 /\
    startMin b = Some sb /\
    sb = (1430 + durationMin a) mod 1440 /\
    (5 <= durationMin late - durationMin a ->
       (sb + durationMin b) mod 1440 = (1430 + durationMin late) mod 1440) /\
    (forall k : Z,
       1 <= k -> 5 * k + 5 <= durationMin late ->
       split_point 1430 (durationMin late) 10 = 1430 + 5 * k ->
       durationMin a = 5 * k /\ durationMin b = durationMin late - 5 * k).
Proof.
  assert (id late ∉ id <$> [report]) as Hpre by by_evaluation.
  assert (id late ∉ id <$> [idea]) as Hpost by by_evaluation.
  split; [reflexivity|]. split; [lia|]. split; [exact Hpre|]. split; [exact Hpost|].
  exact (onSplitTask_tiles sample_uuid [report] [idea] late None 0%nat 1430 10
           eq_refl ltac:(lia) Hpre Hpost).
Defined.

Lemma onSplitTask_total_witness :
  startMin report = Some 540 /\
  (id report ∉ id <$> [late]) /\
  (id report ∉ id <$> [idea]) /\
  totalScheduled (onSplitTask sample_uuid (id report) 598
                    (mkPage ([late] ++ report :: [idea]) None 0)) =
    totalScheduled (mkPage ([late] ++ report :: [idea]) None 0)
    + Z.max 0 (split_durA 540 (durationMin report) 598 + 5 - durationMin report) /\
  totalScheduled (mkPage ([late] ++ report :: [idea]) None 0) <=
    totalScheduled (onSplitTask sample_uuid (id report) 598
                      (mkPage ([late] ++ report :: [idea]) None 0)).
Proof.
  assert (id report ∉ id <$> [late]) as Hpre by by_evaluation.
  assert (id report ∉ id <$> [idea]) as Hpost by by_evaluation.
  split; [reflexivity|]. split; [exact Hpre|]. split; [exact Hpost|].
  exact (onSplitTask_total sample_uuid [late] [idea] report None 0%nat 540 598
           eq_refl Hpre Hpost).
Defined.

Lemma onCreate_unplaced_witness :
  startMin idea = None /\
  (id idea ∉ id <$> tasks (page sample_view)) /\
  scheduled (page (onCreate idea sample_view)) = scheduled (page sample_view) /\
  onDelete (id idea) (page (onCreate idea sample_view)) = page sample_view.
Proof.
  assert (id idea ∉ id <$> tasks (page sample_view)) as Hfresh by by_evaluation.
  split; [reflexivity|]. split; [exact Hfresh|].
  pose proof (onCreate_unplaced sample_view idea eq_refl) as H.
  split; [exact (proj1 (proj2 (proj2 H)))|].
  exact (proj2 (proj2 (proj2 (proj2 (proj2 H)))) Hfresh).
Defined.

Lemma create_place_tap_witness :
  startMin idea = None /\
  id idea <> ""%string /\
  (id idea ∉ id <$> tasks (page sample_view)) /\
  tasks (page (onTapPlace 540 (onRequestPlace (id idea) (onCreate idea sample_view)))) =
    tasks (page sample_view) ++ [with_startMin (Some 540) idea] /\
  placingTaskId (onTapPlace 540 (onRequestPlace (id idea) (onCreate idea sample_view))) = None /\
  totalScheduled (page (onTapPlace 540 (onRequestPlace (id idea) (onCreate idea sample_view)))) =
    totalScheduled (page sample_view) + durationMin idea /\
  onTapPlace 600 (onTapPlace 540 (onRequestPlace (id idea) (onCreate idea sample_view))) =
    onTapPlace 540 (onRequestPlace (id idea) (onCreate idea sample_view)).
Proof.
  assert (id idea <> ""%string) as Hid by discriminate.
  assert (id idea ∉ id <$> tasks (page sample_view)) as Hfresh by by_evaluation.
  split; [reflexivity|]. split; [exact Hid|]. split; [exact Hfresh|].
  exact (create_place_tap sample_view idea 540 600 eq_refl Hid Hfresh).
Defined.

Lemma within_modular_witness :
  0 <= 1400 <= 1439 /\ 0 <= 30 <= 1439 /\
  (1 <= 100 -> (within 30 1400 100 = true <-> (30 - 1400) mod 1440 <= 100)) /\
  (100 = 0 -> within 30 1400 100 = true).
Proof.
  split; [lia|]. split; [lia|].
  exact (within_modular 30 1400 100 ltac:(lia) ltac:(lia)).
Defined.

Lemma remaining_when_active_witness :
  selected sample_page = Some report /\
  startMin report = Some 540 /\
  0 <= 540 <= 1439 /\ 0 <= nowMin (mkClock 9 30 15) <= 1439 /\
  1 <= durationMin report < 1440 /\
  isActive sample_page (mkClock 9 30 15) = true /\
  remaining sample_page (mkClock 9 30 15) = (540 + durationMin report - 570) * 60 - 15 /\
  (0 <= getSeconds (mkClock 9 30 15) <= 59 ->
   -59 <= remaining sample_page (mkClock 9 30 15) <= 60 * durationMin report).
Proof.
  assert (0 <= nowMin (mkClock 9 30 15) <= 1439) as Hnow by (vm_compute; split; discriminate).
  assert (1 <= durationMin report < 1440) as Hd by (vm_compute; split; [discriminate|reflexivity]).
  split; [reflexivity|]. split; [reflexivity|]. split; [lia|]. split; [exact Hnow|].
  split; [exact Hd|]. split; [reflexivity|].
  exact (remaining_when_active sample_page (mkClock 9 30 15) report 540
           eq_refl eq_refl ltac:(lia) Hnow Hd eq_refl).
Defined.

Lemma handleCreate_task_witness :
  form_reachable sample_form /\
  handleCreate (fun s => s) "n1" sample_form =
    Some (mkTask "n1" "Write report" "📝" 30 Focus blue None) /\
  startMin (mkTask "n1" "Write report" "📝" 30 Focus blue None) = None /\
  15 <= durationMin (mkTask "n1" "Write report" "📝" 30 Focus blue None) <= 90.
Proof.
  assert (form_reachable sample_form) as Hreach
    by exact (reach_step _ _ reach_init (step_title form_init "Write report")).
  split; [exact Hreach|]. split; [reflexivity|].
  pose proof (proj2 (handleCreate_task (fun s => s) "n1" sample_form Hreach)
                (mkTask "n1" "Write report" "📝" 30 Focus blue None) eq_refl) as H.
  split; [exact (proj1 (proj2 H))|].
  exact (proj1 (proj2 (proj2 (proj2 (proj2 (proj2 (proj2 H))))))).
Defined.

Lemma scheduled_sorted_witness :
  (0 < 1)%nat /\
  scheduled sample_page !! 0%nat = Some report /\
  scheduled sample_page !! 1%nat = Some late /\
  startMin report = Some 540 /\ startMin late = Some 1430 /\
  540 <= 1430.
Proof.
  split; [lia|]. split; [reflexivity|]. split; [reflexivity|].
  split; [reflexivity|]. split; [reflexivity|].
  exact (proj1 (proj2 (proj2 (scheduled_sorted sample_page)))
           0%nat 1%nat report late 540 1430 ltac:(lia) eq_refl eq_refl eq_refl eq_refl).
Defined.

Lemma selected_sound_witness :
  selected sample_page = Some report /\
  selectedId sample_page = Some (id report) /\
  report ∈ tasks sample_page /\
  exists s : Z, startMin report = Some s.
Proof.
  split; [reflexivity|].
  exact (proj1 (selected_sound sample_page report) eq_refl).
Defined.

Lemma selection_cleared_witness :
  selectedId sample_page = Some "t1"%string /\
  selected (onDelete "t1" sample_page) = None /\
  selected (onUnschedule "t1" sample_page) = None /\
  isActive (onDelete "t1" sample_page) (mkClock 9 30 15) = false /\
  isActive (onUnschedule "t1" sample_page) (mkClock 9 30 15) = false /\
  remaining (onDelete "t1" sample_page) (mkClock 9 30 15) = 0 /\
  remaining (onUnschedule "t1" sample_page) (mkClock 9 30 15) = 0.
Proof.
  split; [reflexivity|].
  exact (proj1 (selection_cleared sample_uuid sample_page "t1" (mkClock 9 30 15)) eq_refl).
Defined.

Lemma countdownText_display_witness :
  0 <= 1785 < 6000 /\ String.length (countdownText 1785) = 5%nat.
Proof.
  split; [lia|].
  exact (proj1 (proj2 (proj2 (countdownText_display 1785 0))) ltac:(lia)).
Defined.

Lemma minutesToTime_fields_witness :
  0 <= 50 < 1440 /\ minutesToTime (50 + 1440) <> minutesToTime 50.
Proof.
  split; [lia|].
  exact (proj2 (proj2 (proj2 (minutesToTime_fields 50 0))) ltac:(lia)).
Defined.

Lemma formatTotal_shape_witness :
  0 <= 1 /\ 0 <= 5 < 60 /\ 65 = 60 * 1 + 5 /\
  formatTotal 65 =
    ((if decide (1 = 0) then "" else Js.toString 1 +:+ "h")
     +:+ (if decide (5 = 0) then (if decide (1 = 0) then "0m" else "")
          else Js.toString 5 +:+ "m"))%string.
Proof.
  split; [lia|]. split; [lia|]. split; [reflexivity|].
  exact (proj2 (formatTotal_shape 65) 1 5 ltac:(lia) ltac:(lia) eq_refl).
Defined.


Lemma toggleTimeMode_twice_witness :
  timeMode sample_view = Mode24h /\
  timeMode (toggleTimeMode 9 sample_view) = Mode12h /\
  (half (toggleTimeMode 9 sample_view) = AM <-> 9 < 12) /\
  half (toggleTimeMode 15 (toggleTimeMode 9 sample_view)) = half (toggleTimeMode 9 sample_view).
Proof.
  split; [reflexivity|].
  exact (proj1 (proj2 (proj2 (proj2 (toggleTimeMode_twice 9 15 sample_view)))) eq_refl).
Defined.
